(** * DOK TOK standalone Telegram bot: a shallow embedding of
      [standalone-bot-final.js] and the properties of its handlers.

    The class [StandaloneDokTokBot] keeps two in-memory maps
    ([userSessions], [loginStates]) and talks to three collaborators: the
    PostgreSQL pool, [bcrypt] and the Telegram transport.  Handlers are
    [async] functions; they are embedded in a state-and-rejection monad
    [Async] over the record [Bot], which carries the two maps and the
    chronological trace of the I/O operations the bot has attempted.  The
    collaborators are gathered in an environment [Env].  A callback is
    followed from its call to the settlement of its promise, with no other
    callback running in between. *)

From Stdlib Require Import Ascii String.
From stdpp Require Import gmap strings list sorting pretty.

Local Open Scope string_scope.
Local Open Scope Z_scope.
Local Open Scope list_scope.

(** ** JavaScript string primitives used by the dispatcher *)

(** [s.startsWith(p)] *)
Definition startsWith (p s : string) : bool := String.prefix p s.

(** [/lit/.exec(s) !== null] for a regular expression that is a literal
    without anchors: the literal occurs somewhere in [s]. *)
Fixpoint regexp_exec (lit s : string) : bool :=
  String.prefix lit s ||
  match s with
  | EmptyString => false
  | String _ rest => regexp_exec lit rest
  end.

Definition nl : string := String "010"%char EmptyString.

(** ** Rows of the two tables the bot reads *)

Module User.
Record t := mk {
  id : Z;
  username : string;
  password : string;      (* the stored bcrypt hash *)
  status : string;
  first_name : string;
  last_name : string;
  role : string }.
End User.

Module Order.
Record t := mk {
  id : Z;
  order_number : string;
  customer_name : string;
  total_amount : string;  (* numeric columns arrive as text *)
  status : string;
  created_at : Z;         (* timestamp, as an instant *)
  product_type : string;
  unit : string;
  quantity : string;
  price : string;
  sales_officer_id : Z }.
End Order.

(** ** In-memory state and I/O trace *)

(** A value of [loginStates]: [{ step: 'username' }] or
    [{ step: 'password', username }]. *)
Inductive LoginState :=
| StepUsername
| StepPassword (username : string).

(** The third argument of [sendMessage]: absent, or
    [{ parse_mode: 'Markdown' }]. *)
Inductive ParseMode := Plain | Markdown.

(** I/O operations, recorded when they are attempted. *)
Inductive Event :=
| SendMessage (chatId : Z) (text : string) (mode : ParseMode)
| QueryUsers (username status : string)
| QueryOrders (userId : Z)
| BcryptCompare (data hash : string)
| ConsoleError (label : string).

Inductive Error := PoolError | TransportError | BcryptError.

Record Bot := mkBot {
  userSessions : gmap Z Z;
  loginStates : gmap Z LoginState;
  trace : list Event }.

(** The collaborators.  The tables are the datastore's content; the two
    oracles tell whether the operation recorded last in the given history
    succeeds (a refused query or send rejects the awaited promise). *)
Record Env := mkEnv {
  users : list User.t;
  orders : list Order.t;
  pool_ok : list Event → bool;
  send_ok : list Event → bool;
  bcrypt_compare : string → string → option bool;
  toLocaleDateString : Z → string }.

(** ** The monad of [async] functions *)

Inductive Completion (A : Type) :=
| Resolved (a : A)
| Rejected (e : Error).
Arguments Resolved {A} a.
Arguments Rejected {A} e.

Definition Async (A : Type) : Type := Bot → Completion A * Bot.

Definition ret {A} (a : A) : Async A := λ b, (Resolved a, b).

Definition bind {A B} (m : Async A) (k : A → Async B) : Async B :=
  λ b, match m b with
       | (Resolved a, b') => k a b'
       | (Rejected e, b') => (Rejected e, b')
       end.

(** [try { body } catch (error) { handler }] *)
Definition try_catch {A} (body : Async A) (handler : Error → Async A) : Async A :=
  λ b, match body b with
       | (Resolved a, b') => (Resolved a, b')
       | (Rejected e, b') => handler e b'
       end.

Notation "x <- m ;; k" := (bind m (λ x, k))
  (at level 100, m at next level, right associativity).
Notation "m ;;; k" := (bind m (λ _, k))
  (at level 100, right associativity).

Definition record (e : Event) (b : Bot) : Bot :=
  mkBot (userSessions b) (loginStates b) (trace b ++ [e]).

(** *** Map operations *)

Definition userSessions_get (chatId : Z) : Async (option Z) :=
  λ b, (Resolved (userSessions b !! chatId), b).

Definition userSessions_set (chatId userId : Z) : Async () :=
  λ b, (Resolved (), mkBot (<[chatId := userId]> (userSessions b)) (loginStates b) (trace b)).

Definition userSessions_delete (chatId : Z) : Async () :=
  λ b, (Resolved (), mkBot (delete chatId (userSessions b)) (loginStates b) (trace b)).

Definition loginStates_get (chatId : Z) : Async (option LoginState) :=
  λ b, (Resolved (loginStates b !! chatId), b).

Definition loginStates_set (chatId : Z) (st : LoginState) : Async () :=
  λ b, (Resolved (), mkBot (userSessions b) (<[chatId := st]> (loginStates b)) (trace b)).

Definition loginStates_delete (chatId : Z) : Async () :=
  λ b, (Resolved (), mkBot (userSessions b) (delete chatId (loginStates b)) (trace b)).

(** *** Collaborators *)

(** [console.error(label, error)] *)
Definition console_error (label : string) : Async () :=
  λ b, (Resolved (), record (ConsoleError label) b).

(** [await this.bot.sendMessage(chatId, text, options)] *)
Definition sendMessage (E : Env) (chatId : Z) (text : string) (mode : ParseMode) : Async () :=
  λ b, let b' := record (SendMessage chatId text mode) b in
       if send_ok E (trace b') then (Resolved (), b') else (Rejected TransportError, b').

(** [SELECT * FROM users WHERE username = $1 AND status = $2] *)
Definition select_users (tbl : list User.t) (username status : string) : list User.t :=
  filter (λ u, User.username u = username ∧ User.status u = status) tbl.

(** [SELECT ... FROM orders WHERE sales_officer_id = $1
     ORDER BY created_at DESC LIMIT 10] *)
Definition created_desc (a b : Order.t) : Prop :=
  Order.created_at b ≤ Order.created_at a.

#[global] Instance created_desc_dec a b : Decision (created_desc a b).
Proof. unfold created_desc. apply _. Defined.

Definition owned_by (userId : Z) (tbl : list Order.t) : list Order.t :=
  filter (λ o, Order.sales_officer_id o = userId) tbl.

Definition select_recent_orders (tbl : list Order.t) (userId : Z) : list Order.t :=
  take 10 (merge_sort created_desc (owned_by userId tbl)).

(** [await this.pool.query(sql, params)], for the two statements. *)
Definition pool_query_users (E : Env) (username status : string) : Async (list User.t) :=
  λ b, let b' := record (QueryUsers username status) b in
       if pool_ok E (trace b')
       then (Resolved (select_users (users E) username status), b')
       else (Rejected PoolError, b').

Definition pool_query_orders (E : Env) (userId : Z) : Async (list Order.t) :=
  λ b, let b' := record (QueryOrders userId) b in
       if pool_ok E (trace b')
       then (Resolved (select_recent_orders (orders E) userId), b')
       else (Rejected PoolError, b').

(** [await bcrypt.compare(data, hash)] *)
Definition bcrypt_compare_async (E : Env) (data hash : string) : Async bool :=
  λ b, let b' := record (BcryptCompare data hash) b in
       match bcrypt_compare E data hash with
       | Some v => (Resolved v, b')
       | None => (Rejected BcryptError, b')
       end.

(** ** The handlers of [StandaloneDokTokBot] *)

Definition welcomePrompt : string :=
  "🏢 Welcome to DOK TOK Sales Order Management" +:+ nl +:+ nl +:+
  "Please login to access your orders:" +:+ nl +:+
  "📝 Send your username to begin".

Definition loginRequiredMsg : string := "❌ Please login first using /start".
Definition loggedOutMsg : string := "✅ Logged out successfully".
Definition restartPrompt : string := "❌ Please start with /start command".
Definition passwordPrompt : string := "🔐 Now send your password:".
Definition invalidUserMsg : string := "❌ Invalid username or user not approved".
Definition invalidPasswordMsg : string := "❌ Invalid password".
Definition loginFailedMsg : string := "❌ Login failed. Please try /start again".
Definition noOrdersMsg : string := "📭 No orders found".
Definition ordersHeader : string := "📋 *Your Recent Orders:*" +:+ nl +:+ nl.
Definition ordersErrorMsg : string := "❌ Error loading orders".

Definition welcomeMsg (user : User.t) : string :=
  "✅ Welcome " +:+ User.first_name user +:+ " " +:+ User.last_name user +:+ "!" +:+ nl +:+
  "📊 Role: " +:+ User.role user +:+ nl +:+ nl +:+
  "Available commands:" +:+ nl +:+
  "📋 /orders - View your orders" +:+ nl +:+
  "🚪 /logout - Logout".

(** [authenticateUser(chatId, username, password)], lines 138-180. *)
Definition authenticateUser (E : Env) (chatId : Z) (username password : string) : Async () :=
  try_catch
    (rows <- pool_query_users E username "approved" ;;
     match rows with
     | [] =>
         sendMessage E chatId invalidUserMsg Plain ;;;
         loginStates_delete chatId
     | user :: _ =>
         validPassword <- bcrypt_compare_async E password (User.password user) ;;
         if negb validPassword then
           sendMessage E chatId invalidPasswordMsg Plain ;;;
           loginStates_delete chatId
         else
           userSessions_set chatId (User.id user) ;;;
           loginStates_delete chatId ;;;
           sendMessage E chatId (welcomeMsg user) Plain
     end)
    (λ error,
       console_error "Authentication error:" ;;;
       sendMessage E chatId loginFailedMsg Plain ;;;
       loginStates_delete chatId).

(** [handleLoginFlow(msg)], lines 118-136, with [msg.chat.id] and
    [msg.text] passed apart. *)
Definition handleLoginFlow (E : Env) (chatId : Z) (text : string) : Async () :=
  loginState <- loginStates_get chatId ;;
  match loginState with
  | None => sendMessage E chatId restartPrompt Plain
  | Some StepUsername =>
      loginStates_set chatId (StepPassword text) ;;;
      sendMessage E chatId passwordPrompt Plain
  | Some (StepPassword username) =>
      authenticateUser E chatId username text
  end.

(** The status glyph of an order line. *)
Definition statusIcon (status : string) : string :=
  if decide (status = "approved") then "✅"
  else if decide (status = "pending") then "⏳"
  else "❌".

(** The body of the [forEach] callback: what one order appends to
    [message]. *)
Definition appendOrder (E : Env) (message : string) (order : Order.t) (index : nat) : string :=
  message
  +:+ (pretty (index + 1)%nat +:+ ". " +:+ statusIcon (Order.status order) +:+
       " *" +:+ Order.order_number order +:+ "*" +:+ nl)
  +:+ ("   Customer: " +:+ Order.customer_name order +:+ nl)
  +:+ ("   Product: " +:+ Order.product_type order +:+ " (" +:+ Order.unit order +:+ ")" +:+ nl)
  +:+ ("   Quantity: " +:+ Order.quantity order +:+ nl)
  +:+ ("   Amount: " +:+ Order.total_amount order +:+ " ETB" +:+ nl)
  +:+ ("   Status: " +:+ Order.status order +:+ nl)
  +:+ ("   Date: " +:+ toLocaleDateString E (Order.created_at order) +:+ nl +:+ nl).

Fixpoint forEach_from (E : Env) (index : nat) (rows : list Order.t) (message : string) : string :=
  match rows with
  | [] => message
  | order :: rest => forEach_from E (S index) rest (appendOrder E message order index)
  end.

Definition formatOrders (E : Env) (rows : list Order.t) : string :=
  forEach_from E 0 rows ordersHeader.

(** [showUserOrders(chatId, userId)], lines 182-222. *)
Definition showUserOrders (E : Env) (chatId userId : Z) : Async () :=
  try_catch
    (rows <- pool_query_orders E userId ;;
     if (length rows =? 0)%nat then
       sendMessage E chatId noOrdersMsg Plain
     else
       sendMessage E chatId (formatOrders E rows) Markdown)
    (λ error,
       console_error "Error fetching orders:" ;;;
       sendMessage E chatId ordersErrorMsg Plain).

(** *** The callbacks registered by [setupHandlers] *)

(** [onText(/\/start/, ...)], lines 72-80. *)
Definition onStart (E : Env) (chatId : Z) : Async () :=
  sendMessage E chatId welcomePrompt Plain ;;;
  loginStates_set chatId StepUsername.

(** [!userId] on the result of [userSessions.get]: [undefined] and the
    number [0] are falsy. *)
Definition falsy (userId : option Z) : bool :=
  match userId with
  | None => true
  | Some n => n =? 0
  end.

(** [onText(/\/orders/, ...)], lines 83-93. *)
Definition onOrders (E : Env) (chatId : Z) : Async () :=
  userId <- userSessions_get chatId ;;
  if falsy userId then
    sendMessage E chatId loginRequiredMsg Plain
  else
    showUserOrders E chatId (default 0 userId).

(** [onText(/\/logout/, ...)], lines 96-101. *)
Definition onLogout (E : Env) (chatId : Z) : Async () :=
  userSessions_delete chatId ;;;
  loginStates_delete chatId ;;;
  sendMessage E chatId loggedOutMsg Plain.

(** An inbound message: [msg.chat.id] and [msg.text] ([None] when the
    message carries no text). *)
Record Message := mkMessage {
  chat_id : Z;
  text : option string }.

(** [msg.text] as a condition: [undefined] and the empty string are falsy. *)
Definition truthy_text (t : option string) : bool :=
  match t with
  | None => false
  | Some s => negb (String.eqb s "")
  end.

(** [on('message', ...)], lines 104-108. *)
Definition onMessage (E : Env) (msg : Message) : Async () :=
  if truthy_text (text msg) && negb (startsWith "/" (default "" (text msg))) then
    handleLoginFlow E (chat_id msg) (default "" (text msg))
  else ret ().

(** *** Dispatch of one inbound message

    The transport library first emits the ['message'] event and then
    tries the [onText] patterns in registration order, calling the
    callback of every pattern found in the text. *)
Inductive Handler := HMessage | HStart | HOrders | HLogout.

Definition onText_routes (t : string) : list Handler :=
  (if regexp_exec "/start" t then [HStart] else []) ++
  (if regexp_exec "/orders" t then [HOrders] else []) ++
  (if regexp_exec "/logout" t then [HLogout] else []).

Definition routes (msg : Message) : list Handler :=
  HMessage :: (if truthy_text (text msg) then onText_routes (default "" (text msg)) else []).

Definition run_handler (E : Env) (msg : Message) (h : Handler) : Async () :=
  match h with
  | HMessage => onMessage E msg
  | HStart => onStart E (chat_id msg)
  | HOrders => onOrders E (chat_id msg)
  | HLogout => onLogout E (chat_id msg)
  end.

(** The callback reaches an [await] for this message: every command
    callback does, and the ['message'] listener does when its guard lets
    the text through to [handleLoginFlow]. *)
Definition awaits (msg : Message) (h : Handler) : bool :=
  match h with
  | HMessage =>
      truthy_text (text msg) && negb (startsWith "/" (default "" (text msg)))
  | _ => true
  end.

Definition awaiting_callbacks (msg : Message) : list Handler :=
  List.filter (awaits msg) (routes msg).

(** The callbacks of one message, run one after the other in the order
    they are called; a rejected callback does not stop the next one.
    The library calls them in this order without awaiting them, so the
    callbacks that reach an [await] overlap in the program: this
    sequential run is the program's dispatch only for a message with at
    most one callback in [awaiting_callbacks], and it is used for such
    messages only. *)
Fixpoint run_handlers (E : Env) (msg : Message) (hs : list Handler) (b : Bot) : Bot :=
  match hs with
  | [] => b
  | h :: rest => run_handlers E msg rest (run_handler E msg h b).2
  end.

Definition processUpdate (E : Env) (msg : Message) (b : Bot) : Bot :=
  run_handlers E msg (routes msg) b.

(** ** Process lifecycle: [initialize], [startHealthCheck], [shutdown]

    The instance fields [bot], [pool] and [isRunning], the console and
    the process exit are kept in a record of their own, around the [Bot]
    record of the two maps. *)

Inductive SysError :=
| ConnectError
| NowQueryError
| TokenQueryError
| TokenNotConfigured      (* 'Bot token not configured in database' *)
| GetMeError
| StopPollingError
| PoolEndError.

Inductive SysEvent :=
| ConsoleLog (line : string)
| ConsoleErrorMessage (label : string) (e : SysError)
| PoolConnect
| ClientQueryNow
| ClientRelease
| PoolQueryToken
| NewTelegramBot (token : string)
| GetMe
| SetInterval (ms : Z)
| StopPolling
| PoolEnd
| ProcessExit (code : Z).

Record Service := mkService {
  this_bot : option string;     (* [this.bot]: [null], or the client built from the token *)
  this_pool : bool;             (* [this.pool]: [null], or the pool *)
  isRunning : bool;
  handlersConfigured : bool;    (* [setupHandlers] has registered the callbacks *)
  maps : Bot;
  syslog : list SysEvent }.

(** [constructor()], lines 9-15. *)
Definition constructor : Service :=
  mkService None false false false (mkBot ∅ ∅ []) [].

(** What the collaborators answer during startup and shutdown:
    [token_rows] is the result of the [bot_config] query ([None] when it
    fails), each row holding a nullable [bot_token]; [getMe_startup] is
    the username [getMe] reports ([None] when it fails). *)
Record Host := mkHost {
  connect_ok : bool;
  now_ok : bool;
  token_rows : option (list (option string));
  getMe_startup : option string;
  stopPolling_ok : bool;
  poolEnd_ok : bool }.

Inductive Settled (A : Type) :=
| Fulfilled (a : A)
| Thrown (e : SysError)
| Exited (code : Z).
Arguments Fulfilled {A} a.
Arguments Thrown {A} e.
Arguments Exited {A} code.

Definition Life (A : Type) : Type := Service → Settled A * Service.

Definition life_ret {A} (a : A) : Life A := λ s, (Fulfilled a, s).

Definition life_bind {A B} (m : Life A) (k : A → Life B) : Life B :=
  λ s, match m s with
       | (Fulfilled a, s') => k a s'
       | (Thrown e, s') => (Thrown e, s')
       | (Exited code, s') => (Exited code, s')
       end.

(** [try { body } catch (error) { handler }]; a process that has exited
    runs no handler. *)
Definition life_try {A} (body : Life A) (handler : SysError → Life A) : Life A :=
  λ s, match body s with
       | (Thrown e, s') => handler e s'
       | settled => settled
       end.

Notation "x <~ m >>> k" := (life_bind m (λ x, k))
  (at level 100, m at next level, right associativity).
Notation "m >>> k" := (life_bind m (λ _, k))
  (at level 100, right associativity).

Definition sys_record (e : SysEvent) (s : Service) : Service :=
  mkService (this_bot s) (this_pool s) (isRunning s) (handlersConfigured s)
    (maps s) (syslog s ++ [e]).

Definition console_log (line : string) : Life () :=
  λ s, (Fulfilled (), sys_record (ConsoleLog line) s).

Definition console_error_message (label : string) (e : SysError) : Life () :=
  λ s, (Fulfilled (), sys_record (ConsoleErrorMessage label e) s).

(** An awaited call on a collaborator: recorded, then fulfilled or
    rejected. *)
Definition await_call (e : SysEvent) (ok : bool) (err : SysError) : Life () :=
  λ s, (if ok then Fulfilled () else Thrown err, sys_record e s).

Definition throw {A} (e : SysError) : Life A := λ s, (Thrown e, s).

(** [process.exit(code)] *)
Definition process_exit {A} (code : Z) : Life A :=
  λ s, (Exited code, sys_record (ProcessExit code) s).

Definition set_pool : Life () :=
  λ s, (Fulfilled (), mkService (this_bot s) true (isRunning s) (handlersConfigured s)
                        (maps s) (syslog s)).

(** [this.bot = new TelegramBot(botToken, { polling: ... })] *)
Definition set_bot (token : string) : Life () :=
  λ s, (Fulfilled (), sys_record (NewTelegramBot token)
                        (mkService (Some token) (this_pool s) (isRunning s)
                           (handlersConfigured s) (maps s) (syslog s))).

Definition set_isRunning (v : bool) : Life () :=
  λ s, (Fulfilled (), mkService (this_bot s) (this_pool s) v (handlersConfigured s)
                        (maps s) (syslog s)).

Definition get_service : Life Service := λ s, (Fulfilled s, s).

(** [await this.bot.getMe()] *)
Definition bot_getMe (answer : option string) : Life string :=
  λ s, (match answer with
        | Some username => Fulfilled username
        | None => Thrown GetMeError
        end, sys_record GetMe s).

(** [await this.pool.query('SELECT bot_token FROM bot_config LIMIT 1')] *)
Definition pool_query_token (H : Host) : Life (list (option string)) :=
  λ s, (match token_rows H with
        | Some rows => Fulfilled (take 1 rows)
        | None => Thrown TokenQueryError
        end, sys_record PoolQueryToken s).

(** [tokenResult.rows[0]?.bot_token] *)
Definition first_bot_token (rows : list (option string)) : option string :=
  match rows with
  | [] => None
  | botToken :: _ => botToken
  end.

(** [!botToken || botToken === 'TELEGRAM_BOT_TOKEN_NOT_SET'] *)
Definition token_not_set (botToken : option string) : bool :=
  negb (truthy_text botToken) ||
  bool_decide (botToken = Some "TELEGRAM_BOT_TOKEN_NOT_SET").

(** [setupHandlers()], lines 70-116: the registration itself. *)
Definition setupHandlers : Life () :=
  (λ s, (Fulfilled (), mkService (this_bot s) (this_pool s) (isRunning s) true
                         (maps s) (syslog s))) >>>
  console_log "✓ Bot message handlers configured".

(** [startHealthCheck()], lines 224-238. *)
Definition startHealthCheck : Life () :=
  (λ s, (Fulfilled (), sys_record (SetInterval 300000) s)) >>>
  console_log "✓ Health monitoring started (5-minute intervals)".

(** [initialize()], lines 17-68. *)
Definition initialize (H : Host) : Life () :=
  life_try
    (console_log "=== DOK TOK Standalone Bot Starting ===" >>>
     set_pool >>>
     await_call PoolConnect (connect_ok H) ConnectError >>>
     await_call ClientQueryNow (now_ok H) NowQueryError >>>
     (λ s, (Fulfilled (), sys_record ClientRelease s)) >>>
     console_log "✓ Database connected successfully" >>>
     rows <~ pool_query_token H >>>
     let botToken := first_bot_token rows in
     if token_not_set botToken then throw TokenNotConfigured
     else
       set_bot (default "" botToken) >>>
       username <~ bot_getMe (getMe_startup H) >>>
       console_log ("✓ Bot authenticated: @" +:+ username) >>>
       setupHandlers >>>
       startHealthCheck >>>
       set_isRunning true >>>
       console_log "✓ DOK TOK Bot is now running independently" >>>
       console_log "✓ Bot will continue running even when main app is offline")
    (λ error,
       console_error_message "✗ Bot initialization failed:" error >>>
       process_exit 1).

(** One firing of the health-check timer, lines 226-235; [probe] is what
    [getMe] answers this time and [now] is [new Date().toISOString()]. *)
Definition healthCheckTick (probe : option string) (now : string) : Life () :=
  life_try
    (s <~ get_service >>>
     if bool_decide (this_bot s ≠ None) && isRunning s then
       bot_getMe probe >>>
       console_log (now +:+ " - Bot health check: OK")
     else life_ret ())
    (λ error, console_error_message "Health check failed:" error).

(** [shutdown()], lines 240-253. *)
Definition shutdown (H : Host) : Life () :=
  console_log "🛑 Shutting down DOK TOK Bot..." >>>
  s <~ get_service >>>
  (if bool_decide (this_bot s ≠ None)
   then await_call StopPolling (stopPolling_ok H) StopPollingError
   else life_ret ()) >>>
  (if this_pool s
   then await_call PoolEnd (poolEnd_ok H) PoolEndError
   else life_ret ()) >>>
  set_isRunning false >>>
  console_log "✅ Bot shutdown complete".

(** The [SIGINT] and [SIGTERM] listeners, lines 257-269; [registered]
    tells whether [global.dokTokBot] is set. *)
Definition onSignal (H : Host) (registered : bool) : Life () :=
  (if registered then shutdown H else life_ret ()) >>>
  process_exit 0.

(** [startDokTokBot()], lines 272-289, from the fresh instance. *)
Definition startDokTokBot (H : Host) : Settled () * Service :=
  life_try
    (initialize H >>>
     (λ s, (Fulfilled (), sys_record (SetInterval 600000) s)))
    (λ error,
       console_error_message "Failed to start DOK TOK Bot:" error >>>
       process_exit 1)
    constructor.

(** The event is among those a run has added to the log. *)
Definition attempted (e : SysEvent) (before after : Service) : Prop :=
  e ∈ drop (length (syslog before)) (syslog after).

(** Startup can succeed: the datastore answers, the first row of
    [bot_config] holds a usable [token], and the transport knows the bot
    as [username]. *)
Definition ready (H : Host) (token username : string) : Prop :=
  connect_ok H = true ∧
  now_ok H = true ∧
  (∃ rest, token_rows H = Some (Some token :: rest)) ∧
  token ≠ "" ∧
  token ≠ "TELEGRAM_BOT_TOKEN_NOT_SET" ∧
  getMe_startup H = Some username.

(** ** Observations on a trace *)

(** The datastore queries among the events of a trace. *)
Definition is_query (e : Event) : bool :=
  match e with
  | QueryUsers _ _ | QueryOrders _ => true
  | _ => false
  end.

Definition queries (t : list Event) : list Event := List.filter is_query t.

(** The credentials are accepted for the row [u]: the lookup succeeds, [u]
    is the first row it returns, and the submitted password verifies
    against the hash stored in [u]. *)
Definition accepted (E : Env) (b : Bot) (username password : string) (u : User.t) : Prop :=
  pool_ok E (trace b ++ [QueryUsers username "approved"]) = true ∧
  head (select_users (users E) username "approved") = Some u ∧
  bcrypt_compare E password (User.password u) = Some true.

(** A text that only the ['message'] listener handles: not empty, not a
    command, and containing none of the three command patterns. *)
Definition free_text (t : string) : Prop :=
  t ≠ "" ∧
  startsWith "/" t = false ∧
  regexp_exec "/start" t = false ∧
  regexp_exec "/orders" t = false ∧
  regexp_exec "/logout" t = false.

(** The event, when it is a send, goes to the conversation [chatId]. *)
Definition sent_to (chatId : Z) (e : Event) : Prop :=
  match e with
  | SendMessage c _ _ => c = chatId
  | _ => True
  end.

(** What the [catch] block of [showUserOrders] adds to the trace. *)
Definition ordersErrorNotice (chatId : Z) : list Event :=
  [ConsoleError "Error fetching orders:"; SendMessage chatId ordersErrorMsg Plain].

(** What the [catch] block of [authenticateUser] adds to the trace. *)
Definition loginErrorNotice (chatId : Z) : list Event :=
  [ConsoleError "Authentication error:"; SendMessage chatId loginFailedMsg Plain].

(** ** The concrete environment and states used by the examples *)

Module Demo.
Definition alice : User.t :=
  User.mk 42 "alice" "hash-of-correctpass" "approved" "Alice" "Abebe" "sales_officer".
Definition alice_again : User.t :=
  User.mk 43 "alice" "hash-of-otherpass" "approved" "Alice" "Bekele" "sales_officer".

(** A stand-in for bcrypt: the hash of [p] is ["hash-of-" ++ p]. *)
Definition compare (data hash : string) : option bool :=
  Some (String.eqb ("hash-of-" +:+ data) hash).

Definition env : Env :=
  mkEnv [alice] [] (λ _, true) (λ _, true) compare (λ _, "1/1/2025").

(** The same datastore with a second approved row of the same username. *)
Definition env_dup : Env :=
  mkEnv [alice; alice_again] [] (λ _, true) (λ _, true) compare (λ _, "1/1/2025").

(** The datastore refusing every query. *)
Definition env_down : Env :=
  mkEnv [alice] [] (λ _, false) (λ _, true) compare (λ _, "1/1/2025").

Definition order_old : Order.t :=
  Order.mk 1 "ORD-001" "Bole Trading" "1500.00" "approved" 100 "Cement" "bag" "30" "50.00" 42.
Definition order_new : Order.t :=
  Order.mk 2 "ORD-002" "Merkato Shop" "200.00" "pending" 300 "Nails" "kg" "4" "50.00" 42.
Definition order_other : Order.t :=
  Order.mk 3 "ORD-003" "Piassa Store" "75.00" "rejected" 200 "Paint" "l" "1" "75.00" 41.


(** A datastore with orders of two sales officers. *)
Definition env_orders : Env :=
  mkEnv [alice] [order_old; order_new; order_other]
    (λ _, true) (λ _, true) compare (λ _, "1/1/2025").

(** A transport that refuses every message. *)
Definition env_mute : Env :=
  mkEnv [alice] [] (λ _, true) (λ _, false) compare (λ _, "1/1/2025").

(** A transport that refuses the first message of a callback run from
    an empty history and accepts the later ones. *)
Definition env_flaky : Env :=
  mkEnv [alice] [] (λ _, true)
    (λ h, match h with
          | [SendMessage _ _ _] => false
          | [QueryUsers _ _; BcryptCompare _ _; SendMessage _ _ _] => false
          | _ => true
          end)
    compare (λ _, "1/1/2025").

(** Eleven orders of one sales officer, created at instants 1 to 11. *)
Definition order_at (n : Z) : Order.t :=
  Order.mk n "ORD" "Customer" "10.00" "pending" n "Cement" "bag" "1" "10.00" 42.
Definition eleven_orders : list Order.t := order_at <$> seqZ 1 11.

Definition fresh : Bot := mkBot ∅ ∅ [].
Definition logged_in : Bot := mkBot {[7 := 42]} ∅ [].
Definition awaiting_password : Bot := mkBot ∅ {[7 := StepPassword "alice"]} [].
End Demo.

(** ** Proof automation for handler runs *)

Ltac async_simpl :=
  cbn [fst snd userSessions loginStates trace negb length Nat.eqb] in *.

Ltac async_unfold :=
  unfold onStart, onLogout, onOrders, onMessage, handleLoginFlow,
    authenticateUser, showUserOrders, try_catch, bind, ret, sendMessage,
    pool_query_users, pool_query_orders, bcrypt_compare_async,
    console_error, userSessions_get, userSessions_set, userSessions_delete,
    loginStates_get, loginStates_set, loginStates_delete, record in *;
  async_simpl.

(** Case analysis on every oracle and query result consulted in the goal,
    innermost first. *)
Ltac async_step :=
  match goal with
  | |- context [pool_ok ?E ?t] => destruct (pool_ok E t) eqn:?
  | |- context [send_ok ?E ?t] => destruct (send_ok E t) eqn:?
  | |- context [bcrypt_compare ?E ?p ?h] =>
      destruct (bcrypt_compare E p h) as [[|]|] eqn:?
  | |- context [select_users ?tbl ?u ?s] =>
      destruct (select_users tbl u s) as [|? ?] eqn:?
  | |- context [select_recent_orders ?tbl ?u] =>
      destruct (select_recent_orders tbl u) as [|? ?] eqn:?
  end;
  async_simpl.

Ltac async_cases := repeat async_step.


(** Closes a goal [∃ added, t = trace b ++ added ∧ Forall _ added] once
    [t] is spelled out. *)
Ltac added_events :=
  rewrite <- ?(assoc_L (++)); cbn [app];
  first [ exists []; split; [by rewrite app_nil_r | constructor]
        | eexists; split; [reflexivity | repeat constructor] ].

(** Evaluation of the lifecycle functions, by value so that each state
    is computed once. *)
Ltac life_unfold :=
  cbv [startDokTokBot onSignal shutdown healthCheckTick initialize
       startHealthCheck setupHandlers pool_query_token bot_getMe get_service
       set_isRunning set_bot set_pool process_exit throw await_call
       console_error_message console_log sys_record life_try life_bind
       life_ret constructor fst snd this_bot this_pool isRunning
       handlersConfigured maps syslog first_bot_token
       connect_ok now_ok token_rows getMe_startup stopPolling_ok poolEnd_ok] in *.

(** Brings [attempted e s s'] to membership in the list of added events,
    once [syslog s'] is spelled out as [syslog s] followed by them. *)
Ltac attempted_list :=
  unfold attempted; cbv [syslog];
  rewrite <- ?(assoc_L (++)); cbn [app];
  rewrite ?drop_app_length.

(** ** Basic facts *)

Lemma queries_app t1 t2 : queries (t1 ++ t2) = queries t1 ++ queries t2.
Proof. unfold queries. apply List.filter_app. Qed.

(** ** [/logout] *)

(** C5: after [/logout] neither map has an entry for the conversation,
    whatever the prior state; a second [/logout] leaves both maps as the
    first one left them and attempts the same confirmation reply. *)
Theorem onLogout_clears_and_is_idempotent (E : Env) (chatId : Z) (b : Bot) :
  let b1 := (onLogout E chatId b).2 in
  let b2 := (onLogout E chatId b1).2 in
  userSessions b1 !! chatId = None ∧
  loginStates b1 !! chatId = None ∧
  trace b1 = trace b ++ [SendMessage chatId loggedOutMsg Plain] ∧
  userSessions b2 = userSessions b1 ∧
  loginStates b2 = loginStates b1 ∧
  trace b2 = trace b1 ++ [SendMessage chatId loggedOutMsg Plain].
Proof.
  async_unfold. async_cases;
    rewrite ?lookup_delete_eq, ?delete_delete_eq; repeat split; reflexivity.
Qed.

(** ** [/orders] without a session *)

(** C7: with no session for the conversation, [/orders] sends the
    login-required message and nothing else happens: no query is issued
    and both maps stay as they were. *)
Theorem onOrders_without_session (E : Env) (chatId : Z) (b : Bot) :
  userSessions b !! chatId = None →
  let b' := (onOrders E chatId b).2 in
  trace b' = trace b ++ [SendMessage chatId loginRequiredMsg Plain] ∧
  queries (trace b') = queries (trace b) ∧
  userSessions b' = userSessions b ∧
  loginStates b' = loginStates b.
Proof.
  intros Hnone. async_unfold. rewrite Hnone. cbn [falsy].
  async_cases; rewrite ?queries_app, ?app_nil_r; repeat split; reflexivity.
Qed.

Lemma onOrders_without_session_witness :
  userSessions Demo.fresh !! 7 = None ∧
  trace (onOrders Demo.env 7 Demo.fresh).2 = [SendMessage 7 loginRequiredMsg Plain].
Proof.
  split; [reflexivity |].
  apply (onOrders_without_session Demo.env 7 Demo.fresh). reflexivity.
Defined.

(** ** [/start] *)

(** C3, as stated, fails: [/start] does not touch [userSessions], so a
    conversation that was logged in is still logged in afterwards. *)
Lemma onStart_session_survives :
  userSessions Demo.logged_in !! 7 = Some 42 ∧
  userSessions (onStart Demo.env 7 Demo.logged_in).2 !! 7 = Some 42.
Proof. split; reflexivity. Qed.

(** C3, amended: [/start] leaves the Session Store as it was, whatever
    the prior state and whatever the transport does, and attempts the
    welcome prompt; when the transport accepts the prompt the
    conversation is put at the username step (replacing any dialogue in
    progress), and when it refuses it the callback is rejected with
    [loginStates] untouched. *)
Theorem onStart_begins_login (E : Env) (chatId : Z) (b : Bot) :
  let r := onStart E chatId b in
  userSessions r.2 = userSessions b ∧
  trace r.2 = trace b ++ [SendMessage chatId welcomePrompt Plain] ∧
  (send_ok E (trace b ++ [SendMessage chatId welcomePrompt Plain]) = true →
   r.1 = Resolved () ∧
   loginStates r.2 = <[chatId := StepUsername]> (loginStates b)) ∧
  (send_ok E (trace b ++ [SendMessage chatId welcomePrompt Plain]) = false →
   r.1 = Rejected TransportError ∧
   loginStates r.2 = loginStates b).
Proof.
  async_unfold.
  destruct (send_ok E (trace b ++ [SendMessage chatId welcomePrompt Plain]));
    async_simpl; repeat split; first [reflexivity | discriminate].
Qed.

Lemma onStart_begins_login_witness :
  userSessions (onStart Demo.env 7 Demo.logged_in).2 = userSessions Demo.logged_in ∧
  loginStates (onStart Demo.env 7 Demo.awaiting_password).2 !! 7 = Some StepUsername ∧
  loginStates (onStart Demo.env_mute 7 Demo.awaiting_password).2 =
    loginStates Demo.awaiting_password.
Proof.
  split; [apply (onStart_begins_login Demo.env 7 Demo.logged_in) |].
  split.
  - destruct (onStart_begins_login Demo.env 7 Demo.awaiting_password)
      as (_ & _ & Hsent & _).
    destruct (Hsent eq_refl) as [_ ->]. apply lookup_insert_eq.
  - destruct (onStart_begins_login Demo.env_mute 7 Demo.awaiting_password)
      as (_ & _ & _ & Hrefused).
    by destruct (Hrefused eq_refl) as [_ ->].
Defined.

(** ** Free text: the login dialogue *)

(** C8: a non-command text for a conversation without dialogue state is
    answered with the restart prompt and changes neither map; with a
    dialogue state the text is the input of the current step: at the
    username step it is stored as the pending username and the password
    is asked for, at the password step it is the password handed to
    [authenticateUser] together with the pending username. *)
Theorem onMessage_free_text (E : Env) (chatId : Z) (t : string) (b : Bot) :
  t ≠ "" →
  startsWith "/" t = false →
  let r := onMessage E (mkMessage chatId (Some t)) b in
  match loginStates b !! chatId with
  | None =>
      trace r.2 = trace b ++ [SendMessage chatId restartPrompt Plain] ∧
      userSessions r.2 = userSessions b ∧
      loginStates r.2 = loginStates b
  | Some StepUsername =>
      trace r.2 = trace b ++ [SendMessage chatId passwordPrompt Plain] ∧
      userSessions r.2 = userSessions b ∧
      loginStates r.2 = <[chatId := StepPassword t]> (loginStates b)
  | Some (StepPassword username) =>
      r = authenticateUser E chatId username t b
  end.
Proof.
  intros Hne Hcmd. unfold onMessage. cbn [text chat_id truthy_text from_option id].
  rewrite Hcmd.
  destruct (String.eqb_spec t "") as [->|_]; [done |]. cbn [negb andb].
  unfold handleLoginFlow, bind, loginStates_get.
  destruct (loginStates b !! chatId) as [[|username]|]; [| reflexivity |];
    async_unfold; async_cases; repeat split; reflexivity.
Qed.

Lemma onMessage_free_text_witness :
  loginStates (onMessage Demo.env (mkMessage 7 (Some "alice")) Demo.fresh).2 =
  loginStates Demo.fresh.
Proof.
  pose proof (onMessage_free_text Demo.env 7 "alice" Demo.fresh) as H.
  cbn in H. apply H; [discriminate | reflexivity].
Defined.

(** The [onText] patterns are not anchored: a free text that contains
    [/start] reaches both the login dialogue and the [/start] callback. *)
Example free_text_containing_start :
  routes (mkMessage 7 (Some "hi /start")) = [HMessage; HStart] ∧
  awaiting_callbacks (mkMessage 7 (Some "hi /start")) = [HMessage; HStart] ∧
  loginStates (onStart Demo.env 7 Demo.fresh).2 = {[7 := StepUsername]}.
Proof. repeat split; vm_compute; reflexivity. Qed.

(** ** [authenticateUser] *)

(** What [authenticateUser] leaves in [userSessions], path by path. *)
Lemma authenticateUser_userSessions (E : Env) (chatId : Z) (username password : string) (b : Bot) :
  userSessions (authenticateUser E chatId username password b).2 =
  if pool_ok E (trace b ++ [QueryUsers username "approved"]) then
    match select_users (users E) username "approved" with
    | [] => userSessions b
    | u :: _ =>
        match bcrypt_compare E password (User.password u) with
        | Some true => <[chatId := User.id u]> (userSessions b)
        | _ => userSessions b
        end
    end
  else userSessions b.
Proof. async_unfold. async_cases; reflexivity. Qed.

(** The events a successful login adds to the trace begin with the
    query, the comparison and the welcome message. *)
Lemma authenticateUser_welcome (E : Env) (chatId : Z) (username password : string) (b : Bot) (u : User.t) :
  accepted E b username password u →
  ∃ rest, trace (authenticateUser E chatId username password b).2 =
          trace b ++ [QueryUsers username "approved";
                      BcryptCompare password (User.password u);
                      SendMessage chatId (welcomeMsg u) Plain] ++ rest.
Proof.
  intros (Hpool & Hhead & Hhash). async_unfold. rewrite Hpool.
  destruct (select_users (users E) username "approved") as [|u' rows];
    [discriminate |]. injection Hhead as ->.
  rewrite Hhash. async_simpl.
  async_cases; rewrite <- ?(assoc_L (++)); cbn [app]; eexists; reflexivity.
Qed.

(** Whether some row is accepted can be decided from the environment. *)
Lemma accepted_or_not (E : Env) (b : Bot) (username password : string) :
  (∃ u, accepted E b username password u) ∨
  ¬ (∃ u, accepted E b username password u).
Proof.
  unfold accepted.
  destruct (pool_ok E _) eqn:Hpool;
    [| right; intros (u & Hfalse & _); discriminate].
  destruct (head (select_users (users E) username "approved")) as [u|] eqn:Hhead;
    [| right; intros (u & _ & Hfalse & _); discriminate].
  destruct (bcrypt_compare E password (User.password u)) as [[|]|] eqn:Hhash.
  - left. eauto.
  - right. intros (v & _ & [= <-] & Hv). congruence.
  - right. intros (v & _ & [= <-] & Hv). congruence.
Qed.

(** Accepted credentials record the session of the accepted row. *)
Lemma authenticateUser_accepted
    (E : Env) (chatId : Z) (username password : string) (b : Bot) (u : User.t) :
  accepted E b username password u →
  userSessions (authenticateUser E chatId username password b).2 =
  <[chatId := User.id u]> (userSessions b).
Proof.
  intros (Hpool & Hhead & Hhash). rewrite authenticateUser_userSessions, Hpool.
  destruct (select_users (users E) username "approved") as [|u' rows];
    [discriminate |]. injection Hhead as ->. by rewrite Hhash.
Qed.

(** Without an accepted row the Session Store is left alone. *)
Lemma authenticateUser_refused
    (E : Env) (chatId : Z) (username password : string) (b : Bot) :
  (¬ ∃ u, accepted E b username password u) →
  userSessions (authenticateUser E chatId username password b).2 = userSessions b.
Proof.
  intros Hnone. rewrite authenticateUser_userSessions.
  destruct (pool_ok E _) eqn:Hpool; [| reflexivity].
  destruct (select_users (users E) username "approved") as [|u rows] eqn:Hrows;
    [reflexivity |].
  destruct (bcrypt_compare E password (User.password u)) as [[|]|] eqn:Hhash;
    try reflexivity.
  destruct Hnone. exists u. unfold accepted. by rewrite Hrows.
Qed.

(** C1, as stated, fails: only the first row of the lookup is compared.
    With two approved rows of the same username, a password that
    verifies against the second row is refused. *)
Lemma authenticateUser_first_row_only :
  (∃ u, u ∈ users Demo.env_dup ∧ User.username u = "alice" ∧
        User.status u = "approved" ∧
        bcrypt_compare Demo.env_dup "otherpass" (User.password u) = Some true) ∧
  authenticateUser Demo.env_dup 7 "alice" "otherpass" Demo.awaiting_password =
    (Resolved (),
     mkBot ∅ ∅ [QueryUsers "alice" "approved";
                BcryptCompare "otherpass" "hash-of-correctpass";
                SendMessage 7 invalidPasswordMsg Plain]).
Proof.
  split.
  - exists Demo.alice_again. repeat split; try reflexivity.
    apply list_elem_of_In. right. left. reflexivity.
  - vm_compute. reflexivity.
Qed.

(** A failing lookup ends in the [catch] block: the record exists and
    the password is right, yet the attempt fails with the generic notice. *)
Example authenticateUser_pool_error :
  authenticateUser Demo.env_down 7 "alice" "correctpass" Demo.awaiting_password =
    (Resolved (),
     mkBot ∅ ∅ [QueryUsers "alice" "approved";
                ConsoleError "Authentication error:";
                SendMessage 7 loginFailedMsg Plain]).
Proof. vm_compute. reflexivity. Qed.

(** C1, amended: the attempt creates the session of the first row the
    lookup returns when the lookup succeeds and the password verifies
    against that row's hash; in every other case (no row, wrong
    password, a failing lookup or comparison) [userSessions] is left as
    it was.  For a conversation without a session, a session exists
    afterwards exactly in the first case. *)
Theorem authenticateUser_succeeds_iff
    (E : Env) (chatId : Z) (username password : string) (b : Bot) :
  let b' := (authenticateUser E chatId username password b).2 in
  (∀ u, accepted E b username password u →
        userSessions b' = <[chatId := User.id u]> (userSessions b) ∧
        ∃ rest, trace b' =
                trace b ++ [QueryUsers username "approved";
                            BcryptCompare password (User.password u);
                            SendMessage chatId (welcomeMsg u) Plain] ++ rest) ∧
  ((¬ ∃ u, accepted E b username password u) →
        userSessions b' = userSessions b) ∧
  (userSessions b !! chatId = None →
        is_Some (userSessions b' !! chatId) ↔
        ∃ u, accepted E b username password u).
Proof.
  cbn zeta.
  split; [| split].
  - intros u Hacc.
    split; [by apply authenticateUser_accepted | by apply authenticateUser_welcome].
  - apply authenticateUser_refused.
  - intros Hfresh. split.
    + intros Hsome.
      destruct (accepted_or_not E b username password) as [Hacc|Hnone];
        [exact Hacc |].
      rewrite (authenticateUser_refused _ _ _ _ _ Hnone), Hfresh in Hsome.
      by destruct Hsome.
    + intros [u Hacc].
      rewrite (authenticateUser_accepted _ chatId _ _ _ _ Hacc), lookup_insert_eq.
      eauto.
Qed.

Lemma authenticateUser_succeeds_iff_witness :
  accepted Demo.env Demo.awaiting_password "alice" "correctpass" Demo.alice ∧
  userSessions
    (authenticateUser Demo.env 7 "alice" "correctpass" Demo.awaiting_password).2
    !! 7 = Some 42.
Proof.
  assert (Hacc : accepted Demo.env Demo.awaiting_password "alice" "correctpass" Demo.alice)
    by (repeat split; reflexivity).
  split; [exact Hacc |].
  destruct (authenticateUser_succeeds_iff Demo.env 7 "alice" "correctpass"
              Demo.awaiting_password) as (Hyes & _ & _).
  destruct (Hyes Demo.alice Hacc) as [-> _]. apply lookup_insert_eq.
Defined.

(** When usernames are unique in the table, the first row of the lookup
    is the only candidate, and acceptance is the existence of an approved
    record of that username whose hash verifies. *)
Lemma accepted_unique_usernames (E : Env) (b : Bot) (username password : string) :
  (∀ u v, u ∈ users E → v ∈ users E → User.username u = User.username v → u = v) →
  pool_ok E (trace b ++ [QueryUsers username "approved"]) = true →
  (∃ u, accepted E b username password u) ↔
  (∃ u, u ∈ users E ∧ User.username u = username ∧ User.status u = "approved" ∧
        bcrypt_compare E password (User.password u) = Some true).
Proof.
  intros Huniq Hpool. unfold accepted, select_users. split.
  - intros (u & _ & Hhead & Hhash). exists u.
    apply head_Some_elem_of, list_elem_of_filter in Hhead as [[Hname Hstatus] Hin].
    done.
  - intros (u & Hin & Hname & Hstatus & Hhash).
    assert (Hfil : u ∈ filter (λ u, User.username u = username ∧
                                    User.status u = "approved") (users E))
      by (apply list_elem_of_filter; done).
    destruct (filter _ (users E)) as [|v rows] eqn:Hrows;
      [by apply elem_of_nil in Hfil |].
    assert (Hv : v ∈ filter (λ u, User.username u = username ∧
                                  User.status u = "approved") (users E))
      by (rewrite Hrows; left).
    apply list_elem_of_filter in Hv as [[Hvname _] Hvin].
    assert (v = u) as -> by (apply Huniq; congruence).
    exists u. done.
Qed.

(** C4, as stated, fails: on a successful login it is [authenticateUser]
    itself that writes the Session Store. *)
Lemma authenticateUser_writes_session :
  userSessions Demo.awaiting_password !! 7 = None ∧
  userSessions
    (authenticateUser Demo.env 7 "alice" "correctpass" Demo.awaiting_password).2
    !! 7 = Some 42.
Proof. split; reflexivity. Qed.

(** C4, amended: an attempt issues exactly one datastore query, touches
    no entry of either map other than the conversation's own, and writes
    the Session Store only when the credentials are accepted, in which
    case it records the session itself. *)
Theorem authenticateUser_frame
    (E : Env) (chatId : Z) (username password : string) (b : Bot) :
  let b' := (authenticateUser E chatId username password b).2 in
  queries (trace b') = queries (trace b) ++ [QueryUsers username "approved"] ∧
  delete chatId (userSessions b') = delete chatId (userSessions b) ∧
  delete chatId (loginStates b') = delete chatId (loginStates b) ∧
  (userSessions b' = userSessions b ∨
   ∃ u, accepted E b username password u ∧
        userSessions b' = <[chatId := User.id u]> (userSessions b)).
Proof.
  cbn zeta. split; [| split; [| split]].
  - async_unfold. async_cases; rewrite !queries_app; cbn;
      rewrite ?app_nil_r; reflexivity.
  - rewrite authenticateUser_userSessions.
    async_cases; rewrite ?delete_insert_eq; reflexivity.
  - async_unfold. async_cases; rewrite ?delete_delete_eq; reflexivity.
  - destruct (accepted_or_not E b username password) as [[u Hacc]|Hnone].
    + right. exists u. split; [exact Hacc |].
      by apply authenticateUser_accepted.
    + left. by apply authenticateUser_refused.
Qed.

(** C6, at the failing input: the password is wrong and the transport
    refuses both the invalid-password notice and the failure notice of
    the [catch] block.  The second [sendMessage] throws out of the
    [catch] block before [loginStates.delete] is reached, so the attempt
    ends, rejected, with the conversation still at the password step. *)
Lemma authenticateUser_refused_notice_keeps_state :
  authenticateUser Demo.env_mute 7 "alice" "wrongpass" Demo.awaiting_password =
    (Rejected TransportError,
     mkBot ∅ {[7 := StepPassword "alice"]}
       [QueryUsers "alice" "approved";
        BcryptCompare "wrongpass" "hash-of-correctpass";
        SendMessage 7 invalidPasswordMsg Plain;
        ConsoleError "Authentication error:";
        SendMessage 7 loginFailedMsg Plain]).
Proof. vm_compute. reflexivity. Qed.

(** The defect is confined to that case: an attempt whose promise is
    fulfilled leaves no dialogue state for the conversation, on each of
    its paths, and the promise is rejected only when the transport
    refuses the failure notice sent from the [catch] block. *)
Lemma authenticateUser_clears_loginState
    (E : Env) (chatId : Z) (username password : string) (b : Bot) :
  match authenticateUser E chatId username password b with
  | (Resolved _, b') =>
      loginStates b' !! chatId = None ∧
      loginStates b' = delete chatId (loginStates b)
  | (Rejected _, b') =>
      send_ok E (trace b') = false ∧
      ∃ h, trace b' = h ++ [ConsoleError "Authentication error:";
                            SendMessage chatId loginFailedMsg Plain]
  end.
Proof.
  async_unfold.
  async_cases; rewrite ?delete_delete_eq, ?lookup_delete_eq;
    try (split; reflexivity); try congruence.
  all: split; [reflexivity |]; eexists; symmetry; apply (app_assoc _ [_] [_]).
Qed.

(** ** The order listing *)

#[global] Instance created_desc_trans : Transitive created_desc.
Proof. unfold created_desc. intros a b c Hab Hbc. lia. Qed.

#[global] Instance created_desc_total : Total created_desc.
Proof. unfold created_desc. intros a b. lia. Qed.

Section select_recent_orders.
Variables (tbl : list Order.t) (userId : Z).

Lemma select_recent_orders_rows : select_recent_orders tbl userId ⊆+ tbl.
Proof.
  unfold select_recent_orders.
  transitivity (merge_sort created_desc (owned_by userId tbl)); [apply submseteq_take |].
  rewrite merge_sort_Permutation.
  apply sublist_submseteq, sublist_filter.
Qed.




Lemma select_recent_orders_sorted :
  StronglySorted created_desc (select_recent_orders tbl userId).
Proof.
  unfold select_recent_orders.
  apply (StronglySorted_app_1_l _ _ (drop 10 (merge_sort created_desc (owned_by userId tbl)))).
  rewrite take_drop. apply StronglySorted_merge_sort; apply _.
Qed.

(** X21: the rows left out by [LIMIT 10] are no more recent than any row
    returned. *)
Lemma select_recent_orders_most_recent (o o' : Order.t) :
  o ∈ select_recent_orders tbl userId →
  o' ∈ drop 10 (merge_sort created_desc (owned_by userId tbl)) →
  Order.created_at o' ≤ Order.created_at o.
Proof.
  unfold select_recent_orders. intros Ho Ho'.
  apply (StronglySorted_app_1_elem_of created_desc
           (take 10 (merge_sort created_desc (owned_by userId tbl)))
           (drop 10 (merge_sort created_desc (owned_by userId tbl)))); [| done | done].
  rewrite take_drop. apply StronglySorted_merge_sort; apply _.
Qed.
End select_recent_orders.

(** With pairwise distinct timestamps a descending list is strictly
    descending. *)
Lemma created_desc_strict (rows : list Order.t) :
  NoDup (Order.created_at <$> rows) →
  StronglySorted created_desc rows →
  StronglySorted (λ a b, Order.created_at b < Order.created_at a) rows.
Proof.
  induction 2 as [|o rows Hsorted IH Hall]; [constructor |].
  rewrite fmap_cons in H. apply NoDup_cons in H as [Hnotin Hnodup].
  constructor; [by apply IH |].
  apply Forall_forall. intros o' Ho'.
  rewrite Forall_forall in Hall. specialize (Hall o' Ho'). unfold created_desc in Hall.
  assert (Order.created_at o' ≠ Order.created_at o); [| lia].
  intros Heq. apply Hnotin. rewrite <- Heq. by apply list_elem_of_fmap_2.
Qed.

(** X22: on a table whose orders have pairwise distinct timestamps the
    listing is strictly descending. *)
Lemma select_recent_orders_strict (tbl : list Order.t) (userId : Z) :
  NoDup (Order.created_at <$> tbl) →
  StronglySorted (λ a b, Order.created_at b < Order.created_at a)
    (select_recent_orders tbl userId).
Proof.
  intros Hnodup.
  apply created_desc_strict; [| apply select_recent_orders_sorted].
  pose proof (select_recent_orders_rows tbl userId) as Hsub.
  apply (fmap_submseteq Order.created_at), submseteq_Permutation in Hsub as [k Hk].
  rewrite Hk in Hnodup. by apply NoDup_app in Hnodup as [Hrows _].
Qed.

Example select_recent_orders_demo :
  select_recent_orders [Demo.order_old; Demo.order_new; Demo.order_other] 42 =
  [Demo.order_new; Demo.order_old].
Proof. vm_compute. reflexivity. Qed.

Example formatOrders_demo :
  formatOrders Demo.env [Demo.order_new] =
  "📋 *Your Recent Orders:*" +:+ nl +:+ nl +:+
  "1. ⏳ *ORD-002*" +:+ nl +:+
  "   Customer: Merkato Shop" +:+ nl +:+
  "   Product: Nails (kg)" +:+ nl +:+
  "   Quantity: 4" +:+ nl +:+
  "   Amount: 200.00 ETB" +:+ nl +:+
  "   Status: pending" +:+ nl +:+
  "   Date: 1/1/2025" +:+ nl +:+ nl.
Proof. vm_compute. reflexivity. Qed.




(** [showUserOrders] never writes either map. *)
Lemma showUserOrders_maps (E : Env) (chatId userId : Z) (b : Bot) :
  userSessions (showUserOrders E chatId userId b).2 = userSessions b ∧
  loginStates (showUserOrders E chatId userId b).2 = loginStates b.
Proof. async_unfold. async_cases; split; reflexivity. Qed.

(** A non-empty result is sent as one Markdown message, the rendering of
    the rows. *)
Lemma showUserOrders_lists (E : Env) (chatId userId : Z) (b : Bot) :
  pool_ok E (trace b ++ [QueryOrders userId]) = true →
  select_recent_orders (orders E) userId ≠ [] →
  ∃ rest, trace (showUserOrders E chatId userId b).2 =
          trace b ++ [QueryOrders userId;
                      SendMessage chatId
                        (formatOrders E (select_recent_orders (orders E) userId))
                        Markdown] ++ rest.
Proof.
  intros Hpool Hrows. async_unfold. rewrite Hpool.
  destruct (select_recent_orders (orders E) userId) as [|o rows]; [done |].
  async_simpl. async_cases; rewrite <- ?(assoc_L (++)); cbn [app];
    eexists; reflexivity.
Qed.

(** String concatenation is associative and has the empty string as
    right unit. *)
Lemma append_nil_r (s : string) : s +:+ "" = s.
Proof.
  induction s as [|c s IH]; [reflexivity |].
  change (String c (s +:+ "") = String c s). by rewrite IH.
Qed.

Lemma append_assoc (s1 s2 s3 : string) : (s1 +:+ s2) +:+ s3 = s1 +:+ (s2 +:+ s3).
Proof.
  induction s1 as [|c s1 IH]; [reflexivity |].
  change (String c ((s1 +:+ s2) +:+ s3) = String c (s1 +:+ (s2 +:+ s3))).
  by rewrite IH.
Qed.

(** The rendering of any result starts with the list header, so it is
    never the "no orders" text. *)
Lemma forEach_from_prefix (E : Env) (rows : list Order.t) (index : nat) (message : string) :
  ∃ tail, forEach_from E index rows message = message +:+ tail.
Proof.
  revert index message. induction rows as [|o rows IH]; intros index message.
  - exists "". cbn [forEach_from]. by rewrite append_nil_r.
  - cbn [forEach_from]. destruct (IH (S index) (appendOrder E message o index)) as [tail ->].
    unfold appendOrder. rewrite !append_assoc. eauto.
Qed.

Lemma formatOrders_not_noOrdersMsg (E : Env) (rows : list Order.t) :
  formatOrders E rows ≠ noOrdersMsg.
Proof.
  unfold formatOrders. destruct (forEach_from_prefix E rows 0 ordersHeader) as [tail ->].
  cbv. discriminate.
Qed.

(** [/orders] with a session hands the stored user id to
    [showUserOrders]; the id [0] is falsy and is refused like a missing
    session. *)
Lemma onOrders_with_session (E : Env) (chatId userId : Z) (b : Bot) :
  userSessions b !! chatId = Some userId →
  userId ≠ 0 →
  onOrders E chatId b = showUserOrders E chatId userId b.
Proof.
  intros Hsession Hid. unfold onOrders, bind, userSessions_get.
  rewrite Hsession. cbn [falsy from_option id].
  by destruct (Z.eqb_spec userId 0).
Qed.

(** C9: when the order query returns zero rows, the reply is the literal
    "no orders" message, sent as plain text, and it differs from what the
    rendering of an empty list would be; the error notice follows only
    if the transport refuses that reply. *)
Theorem showUserOrders_no_orders (E : Env) (chatId userId : Z) (b : Bot) :
  pool_ok E (trace b ++ [QueryOrders userId]) = true →
  select_recent_orders (orders E) userId = [] →
  trace (showUserOrders E chatId userId b).2 =
    trace b ++ [QueryOrders userId; SendMessage chatId noOrdersMsg Plain] ++
    (if send_ok E (trace b ++ [QueryOrders userId; SendMessage chatId noOrdersMsg Plain])
     then []
     else [ConsoleError "Error fetching orders:";
           SendMessage chatId ordersErrorMsg Plain]) ∧
  noOrdersMsg = "📭 No orders found" ∧
  noOrdersMsg ≠ formatOrders E [].
Proof.
  intros Hpool Hrows. split; [| split; [reflexivity |]].
  - async_unfold. rewrite Hpool, Hrows. async_simpl.
    rewrite <- !(assoc_L (++)). cbn [app].
    destruct (send_ok E (trace b ++ _)); async_simpl; cbn [app];
      [reflexivity |].
    async_cases; rewrite <- !(assoc_L (++)); reflexivity.
  - intros Heq. by apply (formatOrders_not_noOrdersMsg E []).
Qed.

Lemma showUserOrders_no_orders_witness :
  trace (showUserOrders Demo.env 7 42 Demo.logged_in).2 =
  [QueryOrders 42; SendMessage 7 "📭 No orders found" Plain].
Proof.
  pose proof (showUserOrders_no_orders Demo.env 7 42 Demo.logged_in eq_refl eq_refl)
    as [Htrace _].
  exact Htrace.
Defined.

(** ** Command texts and the login dialogue *)

(** [/orders] never writes [loginStates]. *)
Lemma onOrders_loginStates (E : Env) (chatId : Z) (b : Bot) :
  loginStates (onOrders E chatId b).2 = loginStates b.
Proof.
  unfold onOrders, bind, userSessions_get.
  destruct (falsy (userSessions b !! chatId)).
  - async_unfold. async_cases; reflexivity.
  - apply showUserOrders_maps.
Qed.

(** C10: for a text that begins with ['/'] the ['message'] listener does
    nothing, so [handleLoginFlow] is not run and the text is not taken
    as a username or a password; unless the text matches [/start] or
    [/logout], the whole dispatch of the message leaves [loginStates] as
    it was. *)
Theorem command_text_skips_login_flow (E : Env) (chatId : Z) (t : string) (b : Bot) :
  startsWith "/" t = true →
  onMessage E (mkMessage chatId (Some t)) = ret () ∧
  (regexp_exec "/start" t = false →
   regexp_exec "/logout" t = false →
   loginStates (processUpdate E (mkMessage chatId (Some t)) b) = loginStates b).
Proof.
  intros Hcmd.
  assert (Hlistener : onMessage E (mkMessage chatId (Some t)) = ret ()).
  { unfold onMessage. cbn [text chat_id from_option id].
    by rewrite Hcmd, andb_false_r. }
  split; [exact Hlistener |].
  intros Hstart Hlogout.
  unfold processUpdate, routes, onText_routes. cbn [text from_option id].
  rewrite Hstart, Hlogout.
  destruct (truthy_text (Some t)), (regexp_exec "/orders" t);
    cbn [app run_handlers run_handler chat_id];
    rewrite Hlistener; cbn [ret snd]; try reflexivity.
  apply onOrders_loginStates.
Qed.

Lemma command_text_skips_login_flow_witness :
  loginStates (processUpdate Demo.env (mkMessage 7 (Some "/help")) Demo.awaiting_password)
    !! 7 = Some (StepPassword "alice").
Proof.
  destruct (command_text_skips_login_flow Demo.env 7 "/help" Demo.awaiting_password eq_refl)
    as [_ Hstates].
  rewrite (Hstates eq_refl eq_refl). reflexivity.
Defined.

(** ** The login scenarios, run through the dispatcher *)

(** [/start], [alice], a wrong password: welcome prompt, password prompt,
    invalid-password message; no session and no dialogue state remain. *)
Example scenario_wrong_password :
  processUpdate Demo.env (mkMessage 7 (Some "wrongpass"))
    (processUpdate Demo.env (mkMessage 7 (Some "alice"))
       (processUpdate Demo.env (mkMessage 7 (Some "/start")) Demo.fresh)) =
  mkBot ∅ ∅
    [SendMessage 7 welcomePrompt Plain;
     SendMessage 7 passwordPrompt Plain;
     QueryUsers "alice" "approved";
     BcryptCompare "wrongpass" "hash-of-correctpass";
     SendMessage 7 invalidPasswordMsg Plain].
Proof. vm_compute. reflexivity. Qed.

(** [/start], [alice], the right password, [/orders]: the session is
    created and the order query is issued for the user's id. *)
Example scenario_login_then_orders :
  processUpdate Demo.env (mkMessage 7 (Some "/orders"))
    (processUpdate Demo.env (mkMessage 7 (Some "correctpass"))
       (processUpdate Demo.env (mkMessage 7 (Some "alice"))
          (processUpdate Demo.env (mkMessage 7 (Some "/start")) Demo.fresh))) =
  mkBot {[7 := 42]} ∅
    [SendMessage 7 welcomePrompt Plain;
     SendMessage 7 passwordPrompt Plain;
     QueryUsers "alice" "approved";
     BcryptCompare "correctpass" "hash-of-correctpass";
     SendMessage 7 (welcomeMsg Demo.alice) Plain;
     QueryOrders 42;
     SendMessage 7 noOrdersMsg Plain].
Proof. vm_compute. reflexivity. Qed.

(** ** Further properties of [showUserOrders] and [/orders] *)

(** X1: when the pool refuses the order query, the failure is logged and the
    generic error notice is the only reply; the promise is rejected only
    if the transport refuses that notice too. *)
Theorem showUserOrders_pool_error (E : Env) (chatId userId : Z) (b : Bot) :
  pool_ok E (trace b ++ [QueryOrders userId]) = false →
  let r := showUserOrders E chatId userId b in
  trace r.2 = trace b ++ QueryOrders userId :: ordersErrorNotice chatId ∧
  r.1 = (if send_ok E (trace r.2) then Resolved () else Rejected TransportError).
Proof.
  intros Hpool. async_unfold. rewrite Hpool. async_simpl.
  rewrite <- !(assoc_L (++)). cbn [app].
  destruct (send_ok E _) eqn:Hsend; async_simpl; rewrite Hsend; split; reflexivity.
Qed.

Lemma showUserOrders_pool_error_witness :
  trace (showUserOrders Demo.env_down 7 42 Demo.logged_in).2 =
  [QueryOrders 42; ConsoleError "Error fetching orders:";
   SendMessage 7 ordersErrorMsg Plain].
Proof.
  apply (showUserOrders_pool_error Demo.env_down 7 42 Demo.logged_in eq_refl).
Defined.

(** Every run of [showUserOrders] issues the order query, once. *)
Lemma showUserOrders_queries (E : Env) (chatId userId : Z) (b : Bot) :
  queries (trace (showUserOrders E chatId userId b).2) =
  queries (trace b) ++ [QueryOrders userId].
Proof.
  async_unfold.
  async_cases; rewrite !queries_app; cbn [queries List.filter is_query app];
    rewrite ?app_nil_r; reflexivity.
Qed.

(** X2: [showUserOrders] only reads: it writes neither map, issues exactly
    one query, and its promise is rejected only when the transport
    refuses the error notice sent from the [catch] block. *)
Theorem showUserOrders_read_only (E : Env) (chatId userId : Z) (b : Bot) :
  let r := showUserOrders E chatId userId b in
  userSessions r.2 = userSessions b ∧
  loginStates r.2 = loginStates b ∧
  queries (trace r.2) = queries (trace b) ++ [QueryOrders userId] ∧
  (r.1 = Resolved () ∨
   send_ok E (trace r.2) = false ∧ ∃ h, trace r.2 = h ++ ordersErrorNotice chatId).
Proof.
  cbn zeta.
  split; [apply showUserOrders_maps |]. split; [apply showUserOrders_maps |].
  split; [apply showUserOrders_queries |].
  async_unfold.
  async_cases; try (left; reflexivity); try congruence.
  all: right; split; [reflexivity |]; eexists; symmetry; apply (app_assoc _ [_] [_]).
Qed.

(** X3: a non-empty result is answered with one Markdown message, the
    rendering of exactly the rows the query returned; the error notice
    follows only if the transport refuses that message. *)
Theorem showUserOrders_list_reply (E : Env) (chatId userId : Z) (b : Bot) :
  pool_ok E (trace b ++ [QueryOrders userId]) = true →
  select_recent_orders (orders E) userId ≠ [] →
  let reply := SendMessage chatId
                 (formatOrders E (select_recent_orders (orders E) userId)) Markdown in
  trace (showUserOrders E chatId userId b).2 =
    trace b ++ [QueryOrders userId; reply] ++
    (if send_ok E (trace b ++ [QueryOrders userId; reply]) then []
     else ordersErrorNotice chatId).
Proof.
  intros Hpool Hrows. async_unfold. rewrite Hpool.
  destruct (select_recent_orders (orders E) userId) as [|o rows]; [done |].
  async_simpl. rewrite <- !(assoc_L (++)). cbn [app].
  destruct (send_ok E (trace b ++ _)); async_simpl; cbn [app]; [reflexivity |].
  async_cases; rewrite <- !(assoc_L (++)); reflexivity.
Qed.

Lemma showUserOrders_list_reply_witness :
  trace (showUserOrders Demo.env_orders 7 42 Demo.logged_in).2 =
  [QueryOrders 42;
   SendMessage 7 (formatOrders Demo.env_orders [Demo.order_new; Demo.order_old]) Markdown].
Proof.
  assert (Hrows : select_recent_orders (orders Demo.env_orders) 42 ≠ [])
    by discriminate.
  exact (showUserOrders_list_reply Demo.env_orders 7 42 Demo.logged_in eq_refl Hrows).
Defined.

(** The [forEach] loop handles a last row after all the others, with the
    number of rows before it as its index. *)
Lemma forEach_from_snoc (E : Env) (rows : list Order.t) (o : Order.t)
    (index : nat) (message : string) :
  forEach_from E index (rows ++ [o]) message =
  appendOrder E (forEach_from E index rows message) o (index + length rows).
Proof.
  revert index message. induction rows as [|o' rows IH]; intros index message.
  - cbn [app forEach_from length]. by rewrite Nat.add_0_r.
  - cbn [app forEach_from length]. rewrite IH. f_equal. lia.
Qed.

(** X4: the rendering numbers the rows by position: appending a row to a
    list of [n] rows appends one entry, numbered [n + 1], to the
    rendering of the list. *)
Theorem formatOrders_snoc (E : Env) (rows : list Order.t) (o : Order.t) :
  formatOrders E (rows ++ [o]) =
  appendOrder E (formatOrders E rows) o (length rows).
Proof. unfold formatOrders. apply forEach_from_snoc. Qed.

(** X5: [/orders] queries the datastore exactly when the session holds a
    truthy user id: a missing session and a stored id [0] are both
    answered with the login-required message and no query. *)
Theorem onOrders_query_iff_truthy_session (E : Env) (chatId : Z) (b : Bot) :
  let b' := (onOrders E chatId b).2 in
  match userSessions b !! chatId with
  | Some userId =>
      if userId =? 0 then
        trace b' = trace b ++ [SendMessage chatId loginRequiredMsg Plain]
      else
        queries (trace b') = queries (trace b) ++ [QueryOrders userId]
  | None =>
      trace b' = trace b ++ [SendMessage chatId loginRequiredMsg Plain]
  end.
Proof.
  cbn zeta. unfold onOrders, bind, userSessions_get.
  destruct (userSessions b !! chatId) as [userId|]; cbn [falsy from_option id].
  - destruct (userId =? 0).
    + async_unfold. async_cases; reflexivity.
    + apply showUserOrders_queries.
  - async_unfold. async_cases; reflexivity.
Qed.

(** ** The login dialogue as a whole *)

(** For a free text the ['message'] listener is [handleLoginFlow]. *)
Lemma onMessage_is_handleLoginFlow (E : Env) (chatId : Z) (t : string) :
  t ≠ "" →
  startsWith "/" t = false →
  onMessage E (mkMessage chatId (Some t)) = handleLoginFlow E chatId t.
Proof.
  intros Hne Hcmd. unfold onMessage. cbn [text chat_id truthy_text from_option id].
  rewrite Hcmd. by destruct (String.eqb_spec t "").
Qed.

(** For a free text the dispatcher calls the listener only, and for the
    text [/start] the [/start] callback is the only one that awaits. *)
Lemma processUpdate_free_text (E : Env) (chatId : Z) (t : string) (b : Bot) :
  free_text t →
  awaiting_callbacks (mkMessage chatId (Some t)) = [HMessage] ∧
  processUpdate E (mkMessage chatId (Some t)) b = (handleLoginFlow E chatId t b).2.
Proof.
  intros (Hne & Hcmd & Hstart & Horders & Hlogout).
  assert (Htruthy : truthy_text (Some t) = true)
    by (cbn [truthy_text]; by destruct (String.eqb_spec t "")).
  unfold awaiting_callbacks, processUpdate, routes, onText_routes.
  cbn [text from_option id]. rewrite Htruthy, Hstart, Horders, Hlogout.
  cbn [app List.filter awaits text from_option id run_handlers run_handler chat_id].
  rewrite Htruthy, Hcmd. cbn [negb andb].
  by rewrite onMessage_is_handleLoginFlow.
Qed.

Lemma processUpdate_start (E : Env) (chatId : Z) (b : Bot) :
  awaiting_callbacks (mkMessage chatId (Some "/start")) = [HStart] ∧
  processUpdate E (mkMessage chatId (Some "/start")) b = (onStart E chatId b).2.
Proof. split; reflexivity. Qed.

(** X6: through the dispatcher, [/start] followed by two free texts
    (texts that contain none of the command patterns) is an
    authentication attempt with the first text as username and the
    second as password; up to that attempt the Session Store is not
    touched. *)
Theorem login_dialogue_composes (E : Env) (chatId : Z) (username password : string) (b : Bot) :
  send_ok E (trace b ++ [SendMessage chatId welcomePrompt Plain]) = true →
  free_text username →
  free_text password →
  let b1 := processUpdate E (mkMessage chatId (Some "/start")) b in
  let b2 := processUpdate E (mkMessage chatId (Some username)) b1 in
  loginStates b2 !! chatId = Some (StepPassword username) ∧
  userSessions b2 = userSessions b ∧
  processUpdate E (mkMessage chatId (Some password)) b2 =
    (authenticateUser E chatId username password b2).2.
Proof.
  intros Hsend Hu Hp. cbn zeta.
  destruct (processUpdate_start E chatId b) as [_ ->].
  destruct (processUpdate_free_text E chatId username (onStart E chatId b).2 Hu)
    as [_ ->].
  assert (Hb1 : loginStates (onStart E chatId b).2 !! chatId = Some StepUsername ∧
                userSessions (onStart E chatId b).2 = userSessions b).
  { async_unfold. rewrite Hsend. async_simpl. by rewrite lookup_insert_eq. }
  destruct Hb1 as [Hstep Hsess].
  destruct (onStart E chatId b) as [c1 b1]. cbn [snd] in *.
  assert (Hb2 : loginStates (handleLoginFlow E chatId username b1).2 !! chatId =
                  Some (StepPassword username) ∧
                userSessions (handleLoginFlow E chatId username b1).2 = userSessions b).
  { rewrite <- Hsess. unfold handleLoginFlow, bind, loginStates_get.
    rewrite Hstep. unfold loginStates_set, sendMessage, record. async_simpl.
    async_cases; by rewrite lookup_insert_eq. }
  destruct Hb2 as [Hstep2 Hsess2].
  split; [exact Hstep2 |]. split; [exact Hsess2 |].
  destruct (handleLoginFlow E chatId username b1) as [c2 b2]. cbn [snd] in *.
  destruct (processUpdate_free_text E chatId password b2 Hp) as [_ ->].
  unfold handleLoginFlow, bind, loginStates_get. by rewrite Hstep2.
Qed.

Lemma login_dialogue_composes_witness :
  processUpdate Demo.env (mkMessage 7 (Some "correctpass"))
    (processUpdate Demo.env (mkMessage 7 (Some "alice"))
       (processUpdate Demo.env (mkMessage 7 (Some "/start")) Demo.fresh)) =
  (authenticateUser Demo.env 7 "alice" "correctpass"
     (processUpdate Demo.env (mkMessage 7 (Some "alice"))
        (processUpdate Demo.env (mkMessage 7 (Some "/start")) Demo.fresh))).2.
Proof.
  apply (login_dialogue_composes Demo.env 7 "alice" "correctpass" Demo.fresh);
    [reflexivity | |]; (split; [discriminate | repeat split]).
Defined.

(** An attempt changes the dialogue state of its own conversation only,
    and only by removing it. *)
Lemma authenticateUser_loginStates (E : Env) (chatId : Z) (username password : string) (b : Bot) :
  delete chatId (loginStates (authenticateUser E chatId username password b).2) =
  delete chatId (loginStates b).
Proof. async_unfold. async_cases; rewrite ?delete_delete_eq; reflexivity. Qed.

(** X7: logging in and then out leaves both maps as they were before, less
    the entries of the conversation. *)
Theorem login_then_logout (E : Env) (chatId : Z) (username password : string)
    (b : Bot) (u : User.t) :
  accepted E b username password u →
  let b1 := (authenticateUser E chatId username password b).2 in
  let b2 := (onLogout E chatId b1).2 in
  userSessions b1 !! chatId = Some (User.id u) ∧
  userSessions b2 = delete chatId (userSessions b) ∧
  loginStates b2 = delete chatId (loginStates b).
Proof.
  intros Hacc. cbn zeta.
  pose proof (authenticateUser_accepted E chatId username password b u Hacc) as Hsess.
  pose proof (authenticateUser_loginStates E chatId username password b) as Hstates.
  split; [by rewrite Hsess, lookup_insert_eq |].
  destruct (authenticateUser E chatId username password b) as [c b1].
  cbn [snd] in *. async_unfold.
  async_cases; rewrite Hsess, Hstates, delete_insert_eq; split; reflexivity.
Qed.

Lemma login_then_logout_witness :
  userSessions
    (onLogout Demo.env 7
       (authenticateUser Demo.env 7 "alice" "correctpass" Demo.awaiting_password).2).2 =
  delete 7 (userSessions Demo.awaiting_password).
Proof.
  assert (Hacc : accepted Demo.env Demo.awaiting_password "alice" "correctpass" Demo.alice)
    by (repeat split; reflexivity).
  apply (login_then_logout Demo.env 7 "alice" "correctpass" Demo.awaiting_password
           Demo.alice Hacc).
Defined.

(** X8: when the credentials are accepted but the transport refuses the
    welcome message, the [catch] block runs: the failure notice is sent
    although the session has been recorded and stays recorded. *)
Theorem authenticateUser_welcome_refused (E : Env) (chatId : Z)
    (username password : string) (b : Bot) (u : User.t) :
  accepted E b username password u →
  send_ok E (trace b ++ [QueryUsers username "approved";
                         BcryptCompare password (User.password u);
                         SendMessage chatId (welcomeMsg u) Plain]) = false →
  let b' := (authenticateUser E chatId username password b).2 in
  trace b' = trace b ++ [QueryUsers username "approved";
                         BcryptCompare password (User.password u);
                         SendMessage chatId (welcomeMsg u) Plain] ++
                        loginErrorNotice chatId ∧
  userSessions b' = <[chatId := User.id u]> (userSessions b) ∧
  loginStates b' = delete chatId (loginStates b).
Proof.
  intros (Hpool & Hhead & Hhash) Hsend. async_unfold. rewrite Hpool.
  destruct (select_users (users E) username "approved") as [|u' rows];
    [discriminate |]. injection Hhead as ->.
  rewrite Hhash. async_simpl.
  rewrite <- !(assoc_L (++)). cbn [app]. rewrite Hsend. async_simpl.
  rewrite <- !(assoc_L (++)). cbn [app].
  async_cases; rewrite ?delete_delete_eq; repeat split; reflexivity.
Qed.

Lemma authenticateUser_welcome_refused_witness :
  userSessions
    (authenticateUser Demo.env_flaky 7 "alice" "correctpass" Demo.awaiting_password).2
    !! 7 = Some 42 ∧
  trace (authenticateUser Demo.env_flaky 7 "alice" "correctpass" Demo.awaiting_password).2 =
    [QueryUsers "alice" "approved";
     BcryptCompare "correctpass" "hash-of-correctpass";
     SendMessage 7 (welcomeMsg Demo.alice) Plain;
     ConsoleError "Authentication error:";
     SendMessage 7 loginFailedMsg Plain].
Proof.
  assert (Hacc : accepted Demo.env_flaky Demo.awaiting_password "alice" "correctpass"
                   Demo.alice) by (repeat split; reflexivity).
  destruct (authenticateUser_welcome_refused Demo.env_flaky 7 "alice" "correctpass"
              Demo.awaiting_password Demo.alice Hacc eq_refl) as (Htrace & Hsess & _).
  split; [rewrite Hsess; apply lookup_insert_eq | exact Htrace].
Defined.

(** ** Properties of every callback

    Each callback is followed here on its own, from its call to the
    settlement of its promise. *)

(** X9: no callback reads or writes an entry of a conversation other
    than the one the message came from: whichever callback a message
    triggers, the session and the dialogue state of every other
    conversation are as before when it settles. *)
Theorem callback_other_conversations
    (E : Env) (msg : Message) (h : Handler) (b : Bot) (c : Z) :
  c ≠ chat_id msg →
  userSessions (run_handler E msg h b).2 !! c = userSessions b !! c ∧
  loginStates (run_handler E msg h b).2 !! c = loginStates b !! c.
Proof.
  intros Hne. destruct h; cbn [run_handler].
  - unfold onMessage. destruct (_ && _); [| done].
    unfold handleLoginFlow, bind, loginStates_get.
    destruct (loginStates b !! chat_id msg) as [[|u]|];
      async_unfold; async_cases;
      rewrite ?lookup_insert_ne, ?lookup_delete_ne by done; done.
  - async_unfold. async_cases; rewrite ?lookup_insert_ne by done; done.
  - unfold onOrders, bind, userSessions_get.
    destruct (falsy _).
    + async_unfold. async_cases; done.
    + destruct (showUserOrders_maps E (chat_id msg)
                  (default 0 (userSessions b !! chat_id msg)) b) as [-> ->]. done.
  - async_unfold. async_cases; rewrite ?lookup_delete_ne by done; done.
Qed.

Lemma callback_other_conversations_witness :
  userSessions (run_handler Demo.env (mkMessage 8 (Some "/logout")) HLogout Demo.logged_in).2
    !! 7 = Some 42.
Proof.
  assert (Hne : (7 : Z) ≠ chat_id (mkMessage 8 (Some "/logout"))) by discriminate.
  destruct (callback_other_conversations Demo.env (mkMessage 8 (Some "/logout")) HLogout
              Demo.logged_in 7 Hne) as [-> _].
  reflexivity.
Defined.

(** X10: whichever callback a message triggers, the callback only adds
    to the trace, and every message it sends goes to the conversation
    the inbound message came from. *)
Theorem callback_replies_to_sender (E : Env) (msg : Message) (h : Handler) (b : Bot) :
  ∃ added, trace (run_handler E msg h b).2 = trace b ++ added ∧
           Forall (sent_to (chat_id msg)) added.
Proof.
  destruct h; cbn [run_handler].
  - unfold onMessage. destruct (_ && _); [| cbn [ret snd]; added_events].
    unfold handleLoginFlow, bind, loginStates_get.
    destruct (loginStates b !! chat_id msg) as [[|u]|];
      async_unfold; async_cases; added_events.
  - async_unfold. async_cases; added_events.
  - unfold onOrders, bind, userSessions_get. destruct (falsy _);
      async_unfold; async_cases; added_events.
  - async_unfold. async_cases; added_events.
Qed.

(** X11: for a conversation that has no truthy session and is not at the
    password step, no callback queries the datastore, whichever callback
    its message triggers. *)
Theorem callback_no_query (E : Env) (msg : Message) (h : Handler) (b : Bot) :
  falsy (userSessions b !! chat_id msg) = true →
  (∀ username, loginStates b !! chat_id msg ≠ Some (StepPassword username)) →
  queries (trace (run_handler E msg h b).2) = queries (trace b).
Proof.
  intros Hfalsy Hstep. destruct h; cbn [run_handler].
  - unfold onMessage. destruct (_ && _); [| done].
    unfold handleLoginFlow, bind, loginStates_get.
    destruct (loginStates b !! chat_id msg) as [[|u]|] eqn:Hstate;
      [| by destruct (Hstep u) |];
      async_unfold; async_cases; rewrite ?queries_app, ?app_nil_r; done.
  - async_unfold. async_cases; rewrite ?queries_app, ?app_nil_r; done.
  - unfold onOrders, bind, userSessions_get. rewrite Hfalsy.
    async_unfold. async_cases; rewrite ?queries_app, ?app_nil_r; done.
  - async_unfold. async_cases; rewrite ?queries_app, ?app_nil_r; done.
Qed.

Lemma callback_no_query_witness :
  queries (trace (run_handler Demo.env (mkMessage 7 (Some "/orders")) HOrders Demo.fresh).2) = [].
Proof.
  apply (callback_no_query Demo.env (mkMessage 7 (Some "/orders")) HOrders Demo.fresh).
  - reflexivity.
  - intros username. discriminate.
Defined.

(** ** Messages the dispatcher drops *)

(** X12: a message without text, with the empty text, or with a command text
    that contains none of the three patterns is dropped: no reply, no
    state change. *)
Theorem processUpdate_ignored (E : Env) (msg : Message) (b : Bot) :
  (∀ t, text msg = Some t →
        t = "" ∨
        startsWith "/" t = true ∧ regexp_exec "/start" t = false ∧
        regexp_exec "/orders" t = false ∧ regexp_exec "/logout" t = false) →
  processUpdate E msg b = b.
Proof.
  intros Htext. destruct msg as [c [t|]]; cbn [text] in Htext; [| reflexivity].
  unfold processUpdate, routes, onText_routes. cbn [text from_option id].
  destruct (Htext t eq_refl) as [-> | (Hcmd & -> & -> & ->)]; [reflexivity |].
  cbn [app]. destruct (truthy_text (Some t)) eqn:Htruthy;
    cbn [run_handlers run_handler]; unfold onMessage; cbn [text from_option id];
    by rewrite Hcmd, andb_false_r.
Qed.

Lemma processUpdate_ignored_witness :
  processUpdate Demo.env (mkMessage 7 (Some "/help")) Demo.awaiting_password =
  Demo.awaiting_password.
Proof.
  apply processUpdate_ignored. intros t [= <-]. right. repeat split.
Defined.

(** A command text that matches neither [/start] nor [/logout] has at
    most one callback that awaits, the [/orders] one. *)
Lemma command_text_awaiting_callbacks (chatId : Z) (t : string) :
  startsWith "/" t = true →
  regexp_exec "/start" t = false →
  regexp_exec "/logout" t = false →
  awaiting_callbacks (mkMessage chatId (Some t)) =
  if regexp_exec "/orders" t then [HOrders] else [].
Proof.
  intros Hcmd Hstart Hlogout.
  assert (Htruthy : truthy_text (Some t) = true)
    by (destruct t; [discriminate | reflexivity]).
  unfold awaiting_callbacks, routes, onText_routes. cbn [text from_option id].
  rewrite Htruthy, Hstart, Hlogout.
  destruct (regexp_exec "/orders" t);
    cbn [app List.filter awaits text from_option id];
    rewrite Htruthy, Hcmd; reflexivity.
Qed.

(** ** Which texts reach the command callbacks *)

Lemma prefix_app (p s : string) :
  String.prefix p s = true ↔ ∃ post, s = p +:+ post.
Proof.
  revert s. induction p as [|a p IH]; intros s.
  - split; [intros _; by exists s | by destruct s].
  - destruct s as [|a' s]; cbn [String.prefix].
    + split; [discriminate | intros [post Hpost]; discriminate].
    + destruct (Ascii.ascii_dec a a') as [<-|Hne].
      * rewrite IH. split; intros [post Hpost]; exists post.
        -- by rewrite Hpost.
        -- by injection Hpost.
      * split; [discriminate |]. intros [post Hpost]. by injection Hpost.
Qed.

(** An unanchored literal pattern matches exactly the texts that contain
    the literal. *)
Lemma regexp_exec_contains (lit s : string) :
  regexp_exec lit s = true ↔ ∃ pre post, s = pre +:+ lit +:+ post.
Proof.
  induction s as [|a s IH].
  - cbn [regexp_exec]. rewrite orb_false_r, prefix_app. split.
    + intros [post Hpost]. by exists "", post.
    + intros (pre & post & Heq). destruct pre; [by exists post | discriminate].
  - cbn [regexp_exec]. rewrite orb_true_iff, prefix_app, IH. split.
    + intros [[post Hpost] | (pre & post & Heq)].
      * by exists "", post.
      * exists (String a pre), post. by rewrite Heq.
    + intros (pre & post & Heq). destruct pre as [|a' pre].
      * left. by exists post.
      * right. exists pre, post. by injection Heq.
Qed.

(** X13: the [/start] callback is called for every text that contains
    [/start] anywhere, and for no other message. *)
Theorem routes_start_iff_contains (chatId : Z) (t : string) :
  HStart ∈ routes (mkMessage chatId (Some t)) ↔
  ∃ pre post, t = pre +:+ "/start" +:+ post.
Proof.
  rewrite <- regexp_exec_contains. unfold routes, onText_routes. cbn [text from_option id].
  split.
  - destruct (regexp_exec "/start" t); [done |].
    destruct (truthy_text (Some t)), (regexp_exec "/orders" t), (regexp_exec "/logout" t);
      cbn [app]; intros Hin; repeat (apply elem_of_cons in Hin as [Hin|Hin]; [discriminate |]);
      by apply elem_of_nil in Hin.
  - intros Hexec.
    assert (Htruthy : truthy_text (Some t) = true).
    { destruct t; [discriminate | reflexivity]. }
    rewrite Htruthy, Hexec. cbn [app]. right. left.
Qed.

(** ** Startup, health check and shutdown *)

(** The token test passes exactly for a non-empty token other than the
    placeholder. *)
Lemma token_not_set_false (botToken : option string) :
  token_not_set botToken = false ↔
  ∃ token, botToken = Some token ∧ token ≠ "" ∧ token ≠ "TELEGRAM_BOT_TOKEN_NOT_SET".
Proof.
  unfold token_not_set, truthy_text. destruct botToken as [token|]; cbn [negb orb].
  - destruct (String.eqb_spec token "") as [->|Hne]; cbn [negb orb].
    + split; [discriminate | by intros (? & [= <-] & ? & _)].
    + case_bool_decide as Hplace.
      * split; [discriminate |]. intros (? & [= <-] & _ & ?). congruence.
      * split; [| done]. intros _. exists token. repeat split; [done |]. congruence.
  - split; [discriminate | by intros (? & ? & _)].
Qed.

Lemma not_elem_of_Forall (x : SysEvent) (evs : list SysEvent) :
  Forall (λ e, e ≠ x) evs → x ∉ evs.
Proof. intros Hall Hin. rewrite Forall_forall in Hall. by apply (Hall _ Hin). Qed.

(** Closes [x ∉ evs] and [¬ attempted x _ _] for an explicit list of
    events that differ from [x] by their constructors. *)
Ltac absent_event :=
  attempted_list; apply not_elem_of_Forall; repeat constructor; discriminate.

(** Closes [x ∈ evs] and [attempted x _ _] for an explicit list of
    events that holds [x]. *)
Ltac present_event :=
  attempted_list; solve [repeat first [by left | right]].

(** Refutes a hypothesis [x ∈ evs] or [attempted x _ _] when [x] is not
    in the explicit list. *)
Ltac absent_hyp :=
  match goal with
  | Hin : attempted _ _ _ |- _ => revert Hin; absent_event
  | Hin : _ ∈ _ |- _ => revert Hin; absent_event
  end.

(** X14: [initialize] never throws: either every startup step succeeds, and
    then the bot holds its client and pool, has its callbacks and health
    timer registered and is running; or the process exits with code 1,
    with neither callbacks nor timer registered and [isRunning] as it
    was. *)
Theorem initialize_outcome (H : Host) (s0 : Service) :
  match initialize H s0 with
  | (Fulfilled _, s) =>
      (∃ token username, ready H token username ∧ this_bot s = Some token) ∧
      this_pool s = true ∧ isRunning s = true ∧ handlersConfigured s = true ∧
      attempted (SetInterval 300000) s0 s
  | (Exited code, s) =>
      code = 1 ∧
      (¬ ∃ token username, ready H token username) ∧
      isRunning s = isRunning s0 ∧ handlersConfigured s = handlersConfigured s0 ∧
      ¬ attempted (SetInterval 300000) s0 s
  | (Thrown _, _) => False
  end.
Proof.
  destruct H as [connect now rows getMe stop pend].
  destruct s0 as [bot pool running handlers m log].
  unfold ready. cbv [connect_ok now_ok token_rows getMe_startup].
  destruct connect;
    [| life_unfold; split; [done |]; split; [by intros (? & ? & ? & _) |];
       repeat (split; [done |]); absent_event].
  destruct now;
    [| life_unfold; split; [done |]; split; [by intros (? & ? & _ & ? & _) |];
       repeat (split; [done |]); absent_event].
  destruct rows as [rows|];
    [| life_unfold; split; [done |]; split; [by intros (? & ? & _ & _ & [? ?] & _) |];
       repeat (split; [done |]); absent_event].
  destruct (token_not_set (first_bot_token rows)) eqn:Hset.
  - assert (Hnot : ¬ ∃ token username : string,
              true = true ∧ true = true ∧
              (∃ rest, Some rows = Some (Some token :: rest)) ∧
              token ≠ "" ∧ token ≠ "TELEGRAM_BOT_TOKEN_NOT_SET" ∧ getMe = Some username).
    { intros (token & username & _ & _ & [rest [= ->]] & Hne & Hplace & _).
      apply not_false_iff_true in Hset. apply Hset, token_not_set_false. eauto. }
    destruct rows as [|botToken rest]; life_unfold; cbv [first_bot_token] in Hset;
      cbn [take]; rewrite Hset;
      (split; [done |]); (split; [exact Hnot |]);
      repeat (split; [done |]); absent_event.
  - apply token_not_set_false in Hset as (token & Hfirst & Hne & Hplace).
    destruct rows as [|botToken rest]; [discriminate |]. cbv [first_bot_token] in Hfirst.
    subst botToken.
    assert (Hset : token_not_set (Some token) = false)
      by (apply token_not_set_false; eauto).
    destruct getMe as [username|]; life_unfold; cbn [take]; rewrite Hset;
      cbn [from_option id].
    + split; [exists token, username; repeat split; eauto |].
      repeat (split; [done |]). present_event.
    + split; [done |]. split; [by intros (? & ? & _ & _ & _ & _ & _ & ?) |].
      repeat (split; [done |]). absent_event.
Qed.

(** X15: with the datastore up but no usable token in the first row of
    [bot_config] (no row, a null, the empty string or the placeholder),
    the process exits with code 1 before any transport client is built. *)
Theorem initialize_token_not_set (H : Host) (s0 : Service) (rows : list (option string)) :
  connect_ok H = true →
  now_ok H = true →
  token_rows H = Some rows →
  first_bot_token rows ∈ [None; Some ""; Some "TELEGRAM_BOT_TOKEN_NOT_SET"] →
  let r := initialize H s0 in
  r.1 = Exited 1 ∧
  this_bot r.2 = this_bot s0 ∧
  attempted (ConsoleErrorMessage "✗ Bot initialization failed:" TokenNotConfigured) s0 r.2 ∧
  (∀ token, ¬ attempted (NewTelegramBot token) s0 r.2) ∧
  ¬ attempted GetMe s0 r.2.
Proof.
  destruct H as [connect now tokens getMe stop pend].
  destruct s0 as [bot pool running handlers m log].
  cbv [connect_ok now_ok token_rows]. intros -> -> -> Htoken.
  assert (Hset : token_not_set (first_bot_token (take 1 rows)) = true).
  { replace (first_bot_token (take 1 rows)) with (first_bot_token rows)
      by (by destruct rows).
    rewrite !elem_of_cons in Htoken.
    destruct Htoken as [-> | [-> | [-> | Hnil]]];
      [reflexivity .. | by apply elem_of_nil in Hnil]. }
  cbv zeta. life_unfold. cbv [first_bot_token] in Hset. rewrite Hset.
  split; [done |]. split; [done |].
  split; [present_event |].
  split; [intros token |]; absent_event.
Qed.

Lemma initialize_token_not_set_witness :
  (initialize (mkHost true true (Some [Some "TELEGRAM_BOT_TOKEN_NOT_SET"]) (Some "doktok_bot")
                 true true) constructor).1 = Exited 1.
Proof.
  apply (initialize_token_not_set
           (mkHost true true (Some [Some "TELEGRAM_BOT_TOKEN_NOT_SET"]) (Some "doktok_bot")
              true true)
           constructor [Some "TELEGRAM_BOT_TOKEN_NOT_SET"] eq_refl eq_refl eq_refl).
  right. right. left.
Defined.

(** X16: a firing of the health timer is harmless: whatever the probe
    answers, the promise is fulfilled and no field of the instance
    changes, sessions and login dialogues included; the transport is
    probed exactly when the client exists and the bot is running, and a
    failed probe is logged. *)
Theorem healthCheckTick_harmless (probe : option string) (now : string) (s : Service) :
  let r := healthCheckTick probe now s in
  r.1 = Fulfilled () ∧
  this_bot r.2 = this_bot s ∧ this_pool r.2 = this_pool s ∧
  isRunning r.2 = isRunning s ∧ handlersConfigured r.2 = handlersConfigured s ∧
  maps r.2 = maps s ∧
  syslog r.2 =
    syslog s ++
    (if bool_decide (this_bot s ≠ None) && isRunning s then
       [GetMe; match probe with
               | Some _ => ConsoleLog (now +:+ " - Bot health check: OK")
               | None => ConsoleErrorMessage "Health check failed:" GetMeError
               end]
     else []).
Proof.
  destruct s as [bot pool running handlers m log]. cbv zeta. life_unfold.
  destruct (bool_decide (bot ≠ None) && running).
  - destruct probe; life_unfold; rewrite <- !(assoc_L (++)); done.
  - life_unfold. rewrite app_nil_r. done.
Qed.

(** X17: [shutdown] stops polling only when a client exists and closes the
    pool only when a pool exists.  When it is fulfilled the bot is no
    longer running; when a step is rejected the later steps are skipped:
    a failing [stopPolling] leaves the pool open, and [isRunning] stays
    as it was. *)
Theorem shutdown_outcome (H : Host) (s : Service) :
  let r := shutdown H s in
  (attempted StopPolling s r.2 ↔ this_bot s ≠ None) ∧
  match r.1 with
  | Fulfilled _ =>
      isRunning r.2 = false ∧ (attempted PoolEnd s r.2 ↔ this_pool s = true)
  | Thrown e =>
      isRunning r.2 = isRunning s ∧
      (e = StopPollingError ∧ stopPolling_ok H = false ∧ ¬ attempted PoolEnd s r.2 ∨
       e = PoolEndError ∧ poolEnd_ok H = false)
  | Exited _ => False
  end ∧
  this_bot r.2 = this_bot s ∧ this_pool r.2 = this_pool s ∧ maps r.2 = maps s.
Proof.
  destruct H as [connect now tokens getMe stop pend].
  destruct s as [bot pool running handlers m log]. cbv zeta.
  assert (Hbot : bool_decide (bot ≠ None) = match bot with Some _ => true | None => false end)
    by (by destruct bot).
  life_unfold. rewrite Hbot.
  destruct bot as [token|], stop, pool, pend; life_unfold; attempted_list;
    repeat match goal with
           | |- _ ∧ _ => split
           | |- _ ↔ _ => split
           | |- _ → _ => intros ?
           end;
    try done; try present_event; try absent_event.
  all: first [ left; repeat split; try done; absent_event
             | right; done
             | exfalso; absent_hyp
             | idtac ].
Qed.

(** X18: a termination signal ends in [process.exit(0)] unless a shutdown
    step is rejected, in which case the listener's promise is rejected
    and the exit call is not reached.  With the instance registered, the
    exit happens with the bot stopped. *)
Theorem onSignal_outcome (H : Host) (registered : bool) (s : Service) :
  let r := onSignal H registered s in
  match r.1 with
  | Exited code =>
      code = 0 ∧
      (∃ h, syslog r.2 = h ++ [ProcessExit 0]) ∧
      (registered = true → isRunning r.2 = false)
  | Thrown e =>
      registered = true ∧
      (stopPolling_ok H = false ∨ poolEnd_ok H = false) ∧
      ¬ attempted (ProcessExit 0) s r.2
  | Fulfilled _ => False
  end.
Proof.
  destruct H as [connect now tokens getMe stop pend].
  destruct s as [bot pool running handlers m log]. cbv zeta.
  destruct registered;
    [| life_unfold; split; [done |]; split; [by eexists | done]].
  assert (Hbot : bool_decide (bot ≠ None) = match bot with Some _ => true | None => false end)
    by (by destruct bot).
  life_unfold. rewrite Hbot.
  destruct bot as [token|], stop, pool, pend; life_unfold;
    first [ split; [done |]; split; [by eexists | done]
          | split; [done |]; split; [by auto |]; absent_event ].
Qed.

(** X19: the graceful sequence: for an initialised bot whose collaborators
    close cleanly, a signal stops the polling, then closes the pool,
    then exits with code 0. *)
Theorem onSignal_graceful (H : Host) (s : Service) :
  this_bot s ≠ None →
  this_pool s = true →
  stopPolling_ok H = true →
  poolEnd_ok H = true →
  let r := onSignal H true s in
  r.1 = Exited 0 ∧
  isRunning r.2 = false ∧
  syslog r.2 =
    syslog s ++ [ConsoleLog "🛑 Shutting down DOK TOK Bot..."; StopPolling; PoolEnd;
                 ConsoleLog "✅ Bot shutdown complete"; ProcessExit 0].
Proof.
  destruct H as [connect now tokens getMe stop pend].
  destruct s as [bot pool running handlers m log].
  cbv [this_bot this_pool stopPolling_ok poolEnd_ok]. intros Hbot -> -> ->.
  destruct bot as [token|]; [| done].
  cbv zeta. life_unfold. rewrite bool_decide_true by done. life_unfold.
  rewrite <- !(assoc_L (++)). done.
Qed.

Lemma onSignal_graceful_witness :
  (onSignal (mkHost true true (Some [Some "123:abc"]) (Some "doktok_bot") true true) true
     (mkService (Some "123:abc") true true true (mkBot {[7 := 42]} ∅ []) [])).1 =
  Exited 0.
Proof.
  apply (onSignal_graceful
           (mkHost true true (Some [Some "123:abc"]) (Some "doktok_bot") true true)
           (mkService (Some "123:abc") true true true (mkBot {[7 := 42]} ∅ []) []));
    first [reflexivity | discriminate].
Defined.

(** X20: [startDokTokBot] never throws and its own [catch] block is dead
    code: a failed startup has already exited with code 1 inside
    [initialize].  The keep-alive timer is registered exactly when the
    startup succeeds, as the last step, after the health timer. *)
Theorem startDokTokBot_outcome (H : Host) :
  match startDokTokBot H with
  | (Fulfilled _, s) =>
      isRunning s = true ∧
      ∃ h, syslog s = h ++ [SetInterval 600000] ∧ SetInterval 300000 ∈ h
  | (Exited code, s) =>
      code = 1 ∧ isRunning s = false ∧ SetInterval 600000 ∉ syslog s
  | (Thrown _, _) => False
  end ∧
  ∀ e, ConsoleErrorMessage "Failed to start DOK TOK Bot:" e ∉ syslog (startDokTokBot H).2.
Proof.
  destruct H as [connect now rows getMe stop pend].
  destruct connect;
    [| life_unfold; repeat split; try done; first [absent_event | intros e; absent_event]].
  destruct now;
    [| life_unfold; repeat split; try done; first [absent_event | intros e; absent_event]].
  destruct rows as [rows|];
    [| life_unfold; repeat split; try done; first [absent_event | intros e; absent_event]].
  destruct (token_not_set (first_bot_token (take 1 rows))) eqn:Hset;
    [life_unfold; cbv [first_bot_token] in Hset; rewrite Hset;
     repeat split; try done; first [absent_event | intros e; absent_event] |].
  destruct getMe as [username|];
    life_unfold; cbv [first_bot_token] in Hset; rewrite Hset;
    [| repeat split; try done; first [absent_event | intros e; absent_event]].
  split; [| intros e; absent_event].
  split; [done |]. eexists. split; [reflexivity |]. present_event.
Qed.

(** ** Witnesses for the order listing *)

Lemma select_recent_orders_most_recent_witness :
  Order.created_at (Demo.order_at 1) ≤ Order.created_at (Demo.order_at 11).
Proof.
  apply (select_recent_orders_most_recent Demo.eleven_orders 42
           (Demo.order_at 11) (Demo.order_at 1)); vm_compute; left.
Defined.

Lemma select_recent_orders_strict_witness :
  StronglySorted (λ a b, Order.created_at b < Order.created_at a)
    (select_recent_orders [Demo.order_old; Demo.order_new; Demo.order_other] 42).
Proof.
  apply select_recent_orders_strict. cbn [fmap list_fmap Order.created_at Demo.order_old
    Demo.order_new Demo.order_other].
  repeat (apply NoDup_cons; split;
          [rewrite ?not_elem_of_cons; repeat split; try discriminate; apply not_elem_of_nil |]).
  apply NoDup_nil_2.
Defined.
